(** * Data-Blogs: the NL-to-SQL action group and the self-healing pipeline

    A shallow embedding of [handler.py] and [self_healing_pipeline.py].

    Conventions.
    - A Python [str] is a [string], one [ascii] per character.  The
      embedding is exact for ASCII text: [upper], [strip] and JSON
      escaping act on code points below 128 as Python does.
    - The boto3 clients are oracles collected in a record; every call is
      appended to a call log, so that what a handler did to the outside
      world can be read back from the log.
    - A Python exception is a value of [exn]; a computation either
      [Returns] a value or [Raises] an exception.
    - [logger] calls are not modelled. *)

From Stdlib Require Import ZArith Ascii DecimalString.
From stdpp Require Import base tactics option list strings gmap.

Local Open Scope Z_scope.
Set Warnings "-register-all".

(** ** Python strings *)

Module Str.

Definition code (c : ascii) : nat := nat_of_ascii c.

(** [str.upper] on one ASCII character. *)
Definition upper_char (c : ascii) : ascii :=
  if ((97 <=? code c) && (code c <=? 122))%nat
  then ascii_of_nat (code c - 32) else c.

(** [s.upper()] *)
Fixpoint upper (s : string) : string :=
  match s with
  | EmptyString => EmptyString
  | String c s' => String (upper_char c) (upper s')
  end.

(** [str.isspace] on one ASCII character: TAB, LF, VT, FF, CR, the four
    separators FS, GS, RS, US and the space. *)
Definition is_space (c : ascii) : bool :=
  (((9 <=? code c) && (code c <=? 13)) ||
   ((28 <=? code c) && (code c <=? 32)))%nat.

Fixpoint lstrip (s : string) : string :=
  match s with
  | EmptyString => EmptyString
  | String c s' => if is_space c then lstrip s' else s
  end.

Fixpoint rstrip (s : string) : string :=
  match s with
  | EmptyString => EmptyString
  | String c s' =>
      match rstrip s' with
      | EmptyString => if is_space c then EmptyString else String c EmptyString
      | r => String c r
      end
  end.

(** [s.strip()] *)
Definition strip (s : string) : string := rstrip (lstrip s).

(** [s.startswith(p)] *)
Fixpoint startswith (p s : string) : bool :=
  match p, s with
  | EmptyString, _ => true
  | String _ _, EmptyString => false
  | String a p', String b s' => if Ascii.eqb a b then startswith p' s' else false
  end.

(** [p in s] on two strings *)
Fixpoint contains (p s : string) : bool :=
  startswith p s ||
  match s with
  | EmptyString => false
  | String _ s' => contains p s'
  end.

(** [s[:n]] for [n >= 0] *)
Fixpoint take (n : nat) (s : string) : string :=
  match n, s with
  | O, _ => EmptyString
  | S _, EmptyString => EmptyString
  | S n', String c s' => String c (take n' s')
  end.

(** [sep.join(l)] *)
Fixpoint join (sep : string) (l : list string) : string :=
  match l with
  | [] => EmptyString
  | [x] => x
  | x :: l' => x +:+ sep +:+ join sep l'
  end.

Definition is_empty (s : string) : bool :=
  match s with EmptyString => true | _ => false end.

Definition quote : string := String (ascii_of_nat 34) EmptyString.
Definition backslash : string := String (ascii_of_nat 92) EmptyString.
Definition newline : string := String (ascii_of_nat 10) EmptyString.

Fixpoint spaces (n : nat) : string :=
  match n with O => EmptyString | S n' => String " "%char (spaces n') end.

(** [str(z)] for an [int] *)
Definition of_Z (z : Z) : string := NilEmpty.string_of_int (Z.to_int z).

Definition hex_digit (n : nat) : ascii :=
  if (n <? 10)%nat then ascii_of_nat (48 + n) else ascii_of_nat (87 + n).

End Str.

(** ** Specification-side vocabulary for strings *)

(** [p] occurs in [s] as a contiguous block. *)
Definition substring_of (p s : string) : Prop :=
  exists pre post, s = pre +:+ p +:+ post.

(** [s] begins with [p]. *)
Definition prefix_of (p s : string) : Prop :=
  exists rest, s = p +:+ rest.

(** Two texts are the same up to letter case. *)
Definition same_nocase (a b : string) : Prop := Str.upper a = Str.upper b.

(** [marker] occurs in [s] when letter case is ignored. *)
Definition substring_nocase (marker s : string) : Prop :=
  exists pre mid post, s = pre +:+ mid +:+ post /\ same_nocase mid marker.

(** ** Exceptions and computations over a call log *)

Inductive exn : Type :=
| ClientError (msg : string)     (* raised by a boto3 call *)
| KeyError (key : string)        (* [d[k]] on a missing key *)
| IndexError (msg : string)      (* [l[i]] out of range *)
| TypeError (msg : string).      (* subscript on a value that has none *)

(** [str(e)] *)
Definition exn_str (e : exn) : string :=
  match e with
  | ClientError msg => msg
  | KeyError key => "'" +:+ key +:+ "'"
  | IndexError msg => msg
  | TypeError msg => msg
  end.

Inductive Outcome (A : Type) : Type :=
| Returns (a : A)
| Raises (e : exn).
Arguments Returns {A} a.
Arguments Raises {A} e.

(** Sequencing of two steps that make no call. *)
Definition and_then {A B} (o : Outcome A) (k : A -> Outcome B) : Outcome B :=
  match o with
  | Returns a => k a
  | Raises e => Raises e
  end.

(** A computation reads the log of the calls made so far and extends it. *)
Definition M (E A : Type) : Type := list E -> Outcome A * list E.

Definition ret {E A} (a : A) : M E A := fun log => (Returns a, log).

Definition raise {E A} (e : exn) : M E A := fun log => (Raises e, log).

Definition bind {E A B} (m : M E A) (k : A -> M E B) : M E B :=
  fun log =>
    match m log with
    | (Returns a, log') => k a log'
    | (Raises e, log') => (Raises e, log')
    end.

(** [try: body  except Exception as e: handler(e)] *)
Definition try_except {E A} (body : M E A) (handler : exn -> M E A) : M E A :=
  fun log =>
    match body log with
    | (Returns a, log') => (Returns a, log')
    | (Raises e, log') => handler e log'
    end.

(** One call to the outside world: it is logged, then answered. *)
Definition call {E A} (c : E) (answer : list E -> Outcome A) : M E A :=
  fun log => (answer log, log ++ [c]).

(** Lift a value that may already be an exception (a failed subscript). *)
Definition lift {E A} (o : Outcome A) : M E A := fun log => (o, log).

Declare Scope py_scope.
Delimit Scope py_scope with py.
Notation "x <- m ;; k" := (bind m (fun x => k))
  (at level 100, m at next level, right associativity) : py_scope.
Notation "m ;;; k" := (bind m (fun _ => k))
  (at level 100, right associativity) : py_scope.

(** A handler invocation starts from an empty call log. *)
Definition run {E A} (m : M E A) : Outcome A * list E := m [].
Definition result_of {E A} (m : M E A) : Outcome A := fst (run m).
Definition calls_of {E A} (m : M E A) : list E := snd (run m).

(** ** JSON values and [json.dumps] *)

(** A float is kept as the expression that produced it. *)
Inductive pyfloat : Type :=
| RoundDiv (num den : Z) (ndigits : Z).   (* round(num / den, ndigits) *)

Inductive json : Type :=
| JNull
| JBool (b : bool)
| JInt (z : Z)
| JFloat (f : pyfloat)
| JStr (s : string)
| JList (l : list json)
| JDict (d : list (string * json)).   (* keys in insertion order *)

Module Json.

(** One character of a string under [ensure_ascii=True]. *)
Definition escape_char (c : ascii) : string :=
  let n := Str.code c in
  if (n =? 34)%nat then Str.backslash +:+ Str.quote
  else if (n =? 92)%nat then Str.backslash +:+ Str.backslash
  else if (n =? 10)%nat then Str.backslash +:+ "n"
  else if (n =? 13)%nat then Str.backslash +:+ "r"
  else if (n =? 9)%nat then Str.backslash +:+ "t"
  else if (n =? 8)%nat then Str.backslash +:+ "b"
  else if (n =? 12)%nat then Str.backslash +:+ "f"
  else if ((32 <=? n) && (n <=? 126))%nat then String c EmptyString
  else Str.backslash +:+ "u00"
       +:+ String (Str.hex_digit (n / 16)) (String (Str.hex_digit (n mod 16)) EmptyString).

Fixpoint escape (s : string) : string :=
  match s with
  | EmptyString => EmptyString
  | String c s' => escape_char c +:+ escape s'
  end.

Definition dumps_str (s : string) : string := Str.quote +:+ escape s +:+ Str.quote.

Section Dumps.
(** [float.__repr__], which [json.dumps] uses for floats. *)
Variable float_repr : pyfloat -> string.
(** [indent=None] or [indent=n] *)
Variable indent : option nat.

Definition item_sep (level : nat) : string :=
  match indent with
  | None => ", "
  | Some n => "," +:+ Str.newline +:+ Str.spaces (n * level)
  end.

Definition opening (level : nat) : string :=
  match indent with
  | None => EmptyString
  | Some n => Str.newline +:+ Str.spaces (n * level)
  end.

Fixpoint dumps_at (level : nat) (j : json) : string :=
  match j with
  | JNull => "null"
  | JBool true => "true"
  | JBool false => "false"
  | JInt z => Str.of_Z z
  | JFloat f => float_repr f
  | JStr s => dumps_str s
  | JList [] => "[]"
  | JList l =>
      "[" +:+ opening (S level)
      +:+ Str.join (item_sep (S level)) (map (dumps_at (S level)) l)
      +:+ opening level +:+ "]"
  | JDict [] => "{}"
  | JDict d =>
      "{" +:+ opening (S level)
      +:+ Str.join (item_sep (S level))
            (map (fun kv => dumps_str (fst kv) +:+ ": " +:+ dumps_at (S level) (snd kv)) d)
      +:+ opening level +:+ "}"
  end.
End Dumps.

(** [json.dumps(j)] and [json.dumps(j, indent=n)] *)
Definition dumps (float_repr : pyfloat -> string) (indent : option nat) (j : json) : string :=
  dumps_at float_repr indent 0 j.

End Json.


(** Subscripts on a decoded JSON document. *)
Definition json_key (k : string) (j : json) : Outcome json :=
  match j with
  | JDict d =>
      match list_find (fun kv => fst kv = k) d with
      | Some (_, kv) => Returns (snd kv)
      | None => Raises (KeyError k)
      end
  | _ => Raises (TypeError "object is not subscriptable by key")
  end.

Definition json_first (j : json) : Outcome json :=
  match j with
  | JList (x :: _) => Returns x
  | JList [] => Raises (IndexError "list index out of range")
  | _ => Raises (TypeError "object is not subscriptable by index")
  end.

Definition json_text (j : json) : Outcome string :=
  match j with
  | JStr s => Returns s
  | _ => Raises (TypeError "object has no attribute 'strip'")
  end.

(** * handler.py: natural language to Athena SQL *)

Module Handler.

Definition ATHENA_OUTPUT : string := "s3://my-athena-results/agent-queries/".
Definition DEFAULT_DATABASE : string := "data_warehouse".
Definition MODEL_ID : string := "anthropic.claude-3-5-sonnet-20241022-v2:0".

(** Statements that must never be executed via this action group *)
Definition BLOCKED_KEYWORDS : list string :=
  ["DROP"; "DELETE"; "INSERT"; "UPDATE"; "ALTER"; "TRUNCATE"; "CREATE"].

(** ** What the services answer *)

(** The value under a column's ['Type'] key: Glue sends a text; the code
    subscripts it with ['Name']. *)
Inductive ColumnType : Type :=
| TypeText (s : string)
| TypeDict (Name : option string).

Record Column := { col_Name : string; col_Type : ColumnType }.
Record StorageDescriptor := { Columns : option (list Column) }.
Record Table := { tbl_Name : string; tbl_StorageDescriptor : option StorageDescriptor }.

(** The ['Statistics'] dictionary; [{}] has neither key. *)
Record Statistics := {
  DataScannedInBytes : option Z;
  TotalExecutionTimeInMillis : option Z }.

Definition no_statistics : Statistics :=
  {| DataScannedInBytes := None; TotalExecutionTimeInMillis := None |}.

(** [response["QueryExecution"]] *)
Record QueryExecution := {
  State : string;                       (* execution["Status"]["State"] *)
  exec_Statistics : option Statistics }.

Record Datum := { VarCharValue : option string }.
Record Row := { Data : list Datum }.

(** ** The calls the module makes *)

Inductive Call : Type :=
| GlueGetTables (DatabaseName : string)
| BedrockInvokeModel (modelId body : string)
| AthenaStartQueryExecution (QueryString Database OutputLocation WorkGroup : string)
| AthenaGetQueryExecution (QueryExecutionId : string)
| TimeSleep (seconds : Z)
| AthenaGetQueryResults (QueryExecutionId : string) (MaxResults : Z).

(** The clients [glue], [bedrock] and [athena].  The answer to a status
    poll may change from one poll to the next: it is indexed by the
    number of polls made before it. *)
Record Clients := {
  glue_get_tables : string -> Outcome (list Table);
  bedrock_invoke_model : string -> string -> Outcome json;
  athena_start_query_execution : string -> string -> string -> string -> Outcome string;
  athena_get_query_execution : string -> nat -> Outcome QueryExecution;
  athena_get_query_results : string -> Z -> Outcome (list Row) }.

Definition is_poll (c : Call) : bool :=
  match c with AthenaGetQueryExecution _ => true | _ => false end.

Definition is_submission (c : Call) : bool :=
  match c with AthenaStartQueryExecution _ _ _ _ => true | _ => false end.

Definition polls_in (log : list Call) : nat := length (filter is_poll log).

(** ** What the module returns *)

(** [{"safe": ...}] with or without a ["reason"] *)
Record Verdict := { safe : bool; reason : option string }.

(** The dictionary of a successful answer; the empty answer has neither
    of the last two keys. *)
Record Payload := {
  sql_generated : string;
  columns : list string;
  rows : list (list string);
  row_count : Z;
  data_scanned_mb : option pyfloat;
  execution_time_ms : option Z }.

(** The dictionary of a failed answer: ["error"], then ["sql"] and
    ["query_id"] when present. *)
Record Failure := {
  error : string;
  sql : option string;
  query_id : option string }.

Inductive QueryResult : Type :=
| Failed (f : Failure)
| Answer (p : Payload).

Definition optional_key {A} (k : string) (f : A -> json) (o : option A) : list (string * json) :=
  match o with Some a => [(k, f a)] | None => [] end.

Definition json_of_result (r : QueryResult) : json :=
  match r with
  | Failed f =>
      JDict ([("error", JStr (error f))]
             ++ optional_key "sql" JStr (sql f)
             ++ optional_key "query_id" JStr (query_id f))
  | Answer p =>
      JDict ([("sql_generated", JStr (sql_generated p));
              ("columns", JList (map JStr (columns p)));
              ("rows", JList (map (fun r => JList (map JStr r)) (rows p)));
              ("row_count", JInt (row_count p))]
             ++ optional_key "data_scanned_mb" JFloat (data_scanned_mb p)
             ++ optional_key "execution_time_ms" JInt (execution_time_ms p))
  end.

(** The Bedrock action-group event. *)
Record Param := { p_name : string; p_value : string }.
Record Event := {
  actionGroup : string;
  function : string;
  parameters : option (list Param) }.

Section WithClients.
Variable float_repr : pyfloat -> string.
Variable svc : Clients.

Local Open Scope py_scope.

(** ** validate_sql *)

(** The [for kw in BLOCKED_KEYWORDS] loop: the first keyword found. *)
Fixpoint first_blocked (kws : list string) (upper : string) : option string :=
  match kws with
  | [] => None
  | kw :: kws' => if Str.contains kw upper then Some kw else first_blocked kws' upper
  end.

Definition validate_sql (sql : string) : Verdict :=
  let upper := Str.upper sql in
  match first_blocked BLOCKED_KEYWORDS upper with
  | Some kw => {| safe := false; reason := Some ("Blocked keyword detected: " +:+ kw) |}
  | None =>
      if negb (Str.startswith "SELECT" (Str.strip upper))
         && negb (Str.startswith "WITH" (Str.strip upper))
      then {| safe := false; reason := Some "Only SELECT / WITH queries are permitted" |}
      else {| safe := true; reason := None |}
  end.

(** ** get_catalog_schema *)

(** [c['Type']['Name']] *)
Definition type_name (t : ColumnType) : Outcome string :=
  match t with
  | TypeText _ => Raises (TypeError "string indices must be integers")
  | TypeDict (Some n) => Returns n
  | TypeDict None => Raises (KeyError "Name")
  end.

(** [f"{c['Name']} ({c['Type']['Name']})"] for each column, in order *)
Fixpoint column_texts (cols : list Column) : Outcome (list string) :=
  match cols with
  | [] => Returns []
  | c :: cols' =>
      match type_name (col_Type c) with
      | Raises e => Raises e
      | Returns n =>
          match column_texts cols' with
          | Raises e => Raises e
          | Returns l => Returns ((col_Name c +:+ " (" +:+ n +:+ ")") :: l)
          end
      end
  end.

(** [table.get("StorageDescriptor", {}).get("Columns", [])] *)
Definition table_columns (t : Table) : list Column :=
  match tbl_StorageDescriptor t with
  | Some sd => default [] (Columns sd)
  | None => []
  end.

(** The body of the [for table in tables[:10]] loop, table by table. *)
Fixpoint schema_lines (tables : list Table) : Outcome (list string) :=
  match tables with
  | [] => Returns []
  | t :: tables' =>
      match column_texts (table_columns t) with
      | Raises e => Raises e
      | Returns cols =>
          match schema_lines tables' with
          | Raises e => Raises e
          | Returns l =>
              Returns (("  TABLE " +:+ tbl_Name t +:+ ": " +:+ Str.join ", " cols) :: l)
          end
      end
  end.

Definition SCHEMA_UNAVAILABLE : string :=
  "Schema unavailable — generate best-effort SQL".

Definition get_catalog_schema (database : string) : M Call string :=
  try_except
    (tables <- call (GlueGetTables database) (fun _ => glue_get_tables svc database) ;;
     lines <- lift (schema_lines (take 10 tables)) ;;
     let text := Str.join Str.newline lines in
     ret (if Str.is_empty text then "No tables found in catalog" else text))
    (fun e => ret SCHEMA_UNAVAILABLE).

(** ** generate_sql *)

Definition sql_prompt (question database schema_context : string) : string :=
  Str.join Str.newline
    [ "Generate a single valid Athena SQL (Presto dialect) query to answer this question.";
      "";
      "Database: " +:+ database;
      "Schema:";
      schema_context;
      "";
      "Question: " +:+ question;
      "";
      "Rules:";
      "- Return ONLY the raw SQL query, no explanation, no markdown backticks";
      "- Use Athena/Presto syntax";
      "- Add LIMIT 1000 unless the question is an aggregation";
      "- Handle NULL values with COALESCE where appropriate";
      "- Use date_trunc or date_format for date grouping questions";
      "" ].

Definition model_request (prompt : string) : string :=
  Json.dumps float_repr None
    (JDict [ ("anthropic_version", JStr "bedrock-2023-05-31");
             ("max_tokens", JInt 512);
             ("messages", JList [JDict [("role", JStr "user"); ("content", JStr prompt)]]) ]).

(** [doc["content"][0]["text"].strip()] on the decoded response body *)
Definition completion_text (doc : json) : Outcome string :=
  and_then (json_key "content" doc) (fun content =>
  and_then (json_first content) (fun first =>
  and_then (json_key "text" first) (fun text =>
  and_then (json_text text) (fun s =>
  Returns (Str.strip s))))).

(** The oracle answers with [json.loads(response["body"].read())]. *)
Definition generate_sql (question database schema_context : string) : M Call string :=
  let body := model_request (sql_prompt question database schema_context) in
  doc <- call (BedrockInvokeModel MODEL_ID body) (fun _ => bedrock_invoke_model svc MODEL_ID body) ;;
  lift (completion_text doc).

(** ** run_athena_query *)

Definition run_athena_query (sql database : string) : M Call string :=
  call (AthenaStartQueryExecution sql database ATHENA_OUTPUT "primary")
       (fun _ => athena_start_query_execution svc sql database ATHENA_OUTPUT "primary").

(** ** poll_query *)

(** [state in ("SUCCEEDED", "FAILED", "CANCELLED")] *)
Definition is_terminal (state : string) : bool :=
  bool_decide (state ∈ ["SUCCEEDED"; "FAILED"; "CANCELLED"]).

(** The loop [for _ in range(n)], by the number of rounds left. *)
Fixpoint poll_rounds (query_id : string) (n : nat) : M Call (string * Statistics) :=
  match n with
  | O => ret ("TIMEOUT", no_statistics)
  | S n' =>
      execution <- call (AthenaGetQueryExecution query_id)
                        (fun log => athena_get_query_execution svc query_id (polls_in log)) ;;
      let state := State execution in
      if is_terminal state
      then ret (state, default no_statistics (exec_Statistics execution))
      else (call (TimeSleep 2) (fun _ => Returns tt) ;;; poll_rounds query_id n')
  end.

(** [range(timeout_seconds // 2)] is empty when the quotient is not positive. *)
Definition poll_query (query_id : string) (timeout_seconds : Z) : M Call (string * Statistics) :=
  poll_rounds query_id (Z.to_nat (timeout_seconds / 2)).

(** ** fetch_results *)

(** [c.get("VarCharValue", "")] *)
Definition cell_text (c : Datum) : string := default "" (VarCharValue c).

Definition fetch_results (query_id sql : string) (stats : Statistics) : M Call Payload :=
  rows <- call (AthenaGetQueryResults query_id 100)
               (fun _ => athena_get_query_results svc query_id 100) ;;
  match rows with
  | [] =>
      ret {| sql_generated := sql; columns := []; rows := []; row_count := 0;
             data_scanned_mb := None; execution_time_ms := None |}
  | header :: rest =>
      let headers := map cell_text (Data header) in
      let data := map (fun row => map cell_text (Data row)) rest in
      let data_scanned_mb :=
        RoundDiv (default 0 (DataScannedInBytes stats)) (1024 * 1024) 3 in
      ret {| sql_generated := sql;
             columns := headers;
             rows := data;
             row_count := Z.of_nat (length data);
             data_scanned_mb := Some data_scanned_mb;
             execution_time_ms := Some (default 0 (TotalExecutionTimeInMillis stats)) |}
  end.

(** ** execute_nl_query *)

Definition execute_nl_query (question database : string) : M Call QueryResult :=
  schema_context <- get_catalog_schema database ;;
  sql_query <- generate_sql question database schema_context ;;
  let safety_check := validate_sql sql_query in
  if negb (safe safety_check)
  then
    (* [safety_check['reason']] *)
    r <- lift (from_option Returns (Raises (KeyError "reason")) (reason safety_check)) ;;
    ret (Failed {| error := "Query blocked: " +:+ r;
                   sql := Some sql_query; query_id := None |})
  else
    query_id <- run_athena_query sql_query database ;;
    polled <- poll_query query_id 60 ;;
    let state := fst polled in
    let stats := snd polled in
    if negb (String.eqb state "SUCCEEDED")
    then ret (Failed {| error := "Athena query " +:+ state;
                        sql := Some sql_query; query_id := Some query_id |})
    else
      p <- fetch_results query_id sql_query stats ;;
      ret (Answer p).

(** ** lambda_handler *)

(** [{p["name"]: p["value"] for p in ...}]: a later parameter of the
    same name replaces an earlier one. *)
Definition params_of (ps : list Param) : gmap string string :=
  foldl (fun m p => <[p_name p := p_value p]> m) ∅ ps.

Definition envelope (action_group function_name body : string) : json :=
  JDict [ ("messageVersion", JStr "1.0");
          ("response",
           JDict [ ("actionGroup", JStr action_group);
                   ("function", JStr function_name);
                   ("functionResponse",
                    JDict [("responseBody",
                            JDict [("TEXT", JDict [("body", JStr body)])])]) ]) ].

Definition lambda_handler (event : Event) : M Call json :=
  let action_group := actionGroup event in
  let function_name := function event in
  let params := params_of (default [] (parameters event)) in
  result <-
    (if String.eqb function_name "execute_nl_query"
     then
       question <- lift (from_option Returns (Raises (KeyError "question")) (params !! "question")) ;;
       execute_nl_query question (default DEFAULT_DATABASE (params !! "database"))
     else ret (Failed {| error := "Unknown function: " +:+ function_name;
                         sql := None; query_id := None |})) ;;
  ret (envelope action_group function_name
         (Json.dumps float_repr None (json_of_result result))).

End WithClients.
End Handler.

(** * self_healing_pipeline.py: failure triage *)

Module SelfHealing.

Definition AGENT_ID : string := "YOUR_AGENT_ID".
Definition AGENT_ALIAS_ID : string := "PROD".
Definition ESCALATION_TOPIC_ARN : string :=
  "arn:aws:sns:us-east-1:YOUR_ACCOUNT_ID:data-engineering-alerts".

(** ** What the services answer *)

(** One Glue job run; [StartedOn] is kept as its [isoformat()] text. *)
Record JobRun := {
  Id : string;
  JobRunState : string;
  StartedOn : string;
  ErrorMessage : option string }.

(** One item of [response["completion"]]: either key may be present.
    [chunk] is [item["chunk"]["bytes"].decode("utf-8")]; [trace] is
    [item["trace"]], whose own ["trace"] key may be missing, as may the
    ["orchestrationTrace"] key below it. *)
Record TraceBody := { orchestrationTrace : option json }.
Record TracePart := { inner_trace : option TraceBody }.
Record StreamItem := { chunk : option string; trace : option TracePart }.

Record Dimension := { dim_Name : string; dim_Value : string }.
Record MetricDatum := {
  MetricName : string;
  Dimensions : list Dimension;
  Value : Z;
  Unit : string }.

(** ** The calls the module makes *)

Inductive Call : Type :=
| LogsFilterLogEvents (logGroupName filterPattern : string) (limit : Z)
| GlueGetJobRuns (JobName : string) (MaxResults : Z)
| BedrockInvokeAgent (agentId agentAliasId sessionId inputText : string) (enableTrace : bool)
| CloudwatchPutMetricData (Namespace : string) (MetricData : list MetricDatum)
| SnsPublish (TopicArn Subject Message : string).

(** The clients [logs_client], [glue], [bedrock_runtime], [cloudwatch]
    and [sns].  [logs_filter_log_events] answers with the messages under
    ["events"], or [None] when the key is missing. *)
Record Clients := {
  logs_filter_log_events : string -> string -> Z -> Outcome (option (list string));
  glue_get_job_runs : string -> Z -> Outcome (list JobRun);
  bedrock_invoke_agent : string -> string -> string -> string -> bool -> Outcome (list StreamItem);
  cloudwatch_put_metric_data : string -> list MetricDatum -> Outcome unit;
  sns_publish : string -> string -> string -> Outcome unit }.

Definition is_publish (c : Call) : bool :=
  match c with SnsPublish _ _ _ => true | _ => false end.

(** The number of notifications sent to the alert topic. *)
Definition notifications (log : list Call) : nat := length (filter is_publish log).

(** ** The event and the summary *)

(** The EventBridge event: [detail] and each of its keys may be missing. *)
Record Detail := {
  jobName : option string;
  jobRunId : option string;
  message : option string }.
Record Event := { detail : option Detail }.

Definition no_detail : Detail :=
  {| jobName := None; jobRunId := None; message := None |}.

(** One entry of the run history handed to the prompt. *)
Record RunState := {
  rs_run_id : string;
  rs_state : string;
  rs_started : string;
  rs_error : string }.

Definition json_of_run (r : RunState) : json :=
  JDict [ ("run_id", JStr (rs_run_id r));
          ("state", JStr (rs_state r));
          ("started", JStr (rs_started r));
          ("error", JStr (rs_error r)) ].

(** The dictionary [lambda_handler] returns. *)
Record Summary := {
  job_name : string;
  run_id : string;
  agent_steps : Z;
  resolved : bool;
  summary : string }.

Section WithClients.
Variable float_repr : pyfloat -> string.
Variable svc : Clients.

Local Open Scope py_scope.

(** ** build_prompt *)

Definition build_prompt (job_name run_id error_msg log_context : string)
    (recent_runs : list RunState) : string :=
  Str.join Str.newline
    [ "";
      "PIPELINE FAILURE ALERT";
      "";
      "Job: " +:+ job_name;
      "Run ID: " +:+ run_id;
      "Error: " +:+ error_msg;
      "";
      "Recent error logs:";
      log_context;
      "";
      "Last 3 run states:";
      Json.dumps float_repr (Some 2%nat) (JList (map json_of_run recent_runs));
      "";
      "Your task:";
      "1. Diagnose the root cause (schema drift, data issue, transient AWS error, config problem)";
      "2. Determine if this is auto-remediable with confidence > 80%";
      "3. If yes: take corrective action and re-trigger the job";
      "4. If no: respond with ESCALATE and summarize what a human needs to investigate";
      "5. Always explain your reasoning step by step";
      "" ].

(** ** invoke_agent *)

(** One round of [for chunk in response["completion"]]. *)
Definition consume_item (acc : string * list json) (item : StreamItem) : string * list json :=
  let '(full_text, traces) := acc in
  match chunk item with
  | Some text => (full_text +:+ text, traces)
  | None =>
      match trace item with
      | Some part =>
          match inner_trace part with
          | Some {| orchestrationTrace := Some t |} => (full_text, traces ++ [t])
          | _ => (full_text, traces)
          end
      | None => (full_text, traces)
      end
  end.

Definition invoke_agent (prompt session_id : string) : M Call (string * list json) :=
  completion <- call (BedrockInvokeAgent AGENT_ID AGENT_ALIAS_ID session_id prompt true)
                     (fun _ => bedrock_invoke_agent svc AGENT_ID AGENT_ALIAS_ID session_id prompt true) ;;
  ret (foldl consume_item ("", []) completion).

(** ** get_cloudwatch_logs *)

Definition get_cloudwatch_logs (job_name run_id : string) : M Call string :=
  try_except
    (events <- call (LogsFilterLogEvents "/aws-glue/jobs/error" run_id 20)
                    (fun _ => logs_filter_log_events svc "/aws-glue/jobs/error" run_id 20) ;;
     let lines := default [] events in
     ret (match lines with
          | [] => "No log events found"
          | _ => Str.join Str.newline lines
          end))
    (fun e => ret ("Could not retrieve logs: " +:+ exn_str e)).

(** ** get_recent_run_history *)

Definition run_state_of (r : JobRun) : RunState :=
  {| rs_run_id := Id r;
     rs_state := JobRunState r;
     rs_started := StartedOn r;
     rs_error := default "" (ErrorMessage r) |}.

Definition get_recent_run_history (job_name : string) : M Call (list RunState) :=
  try_except
    (runs <- call (GlueGetJobRuns job_name 3) (fun _ => glue_get_job_runs svc job_name 3) ;;
     ret (map run_state_of runs))
    (fun _ => ret []).

(** ** emit_metrics *)

Definition metric_data (job_name : string) (traces : list json) : list MetricDatum :=
  [ {| MetricName := "AutoRemediationAttempt";
       Dimensions := [ {| dim_Name := "JobName"; dim_Value := job_name |} ];
       Value := 1;
       Unit := "Count" |};
    {| MetricName := "AgentTraceSteps";
       Dimensions := [ {| dim_Name := "JobName"; dim_Value := job_name |} ];
       Value := Z.of_nat (length traces);
       Unit := "Count" |} ].

Definition emit_metrics (job_name : string) (traces : list json) : M Call unit :=
  call (CloudwatchPutMetricData "AgenticDE/SelfHealing" (metric_data job_name traces))
       (fun _ => cloudwatch_put_metric_data svc "AgenticDE/SelfHealing" (metric_data job_name traces)).

(** ** escalate_to_human *)

Definition escalation_subject (job_name : string) : string :=
  "[AgenticDE] Manual intervention needed: " +:+ job_name.

Definition escalation_message (job_name run_id error_msg agent_summary : string) : string :=
  Json.dumps float_repr (Some 2%nat)
    (JDict [ ("alert", JStr "Agent could not auto-remediate");
             ("job_name", JStr job_name);
             ("run_id", JStr run_id);
             ("error", JStr error_msg);
             ("agent_analysis", JStr agent_summary);
             ("action_required", JStr "Please review and re-trigger manually") ]).

Definition escalate_to_human (job_name run_id error_msg agent_summary : string) : M Call unit :=
  let subject := escalation_subject job_name in
  let msg := escalation_message job_name run_id error_msg agent_summary in
  call (SnsPublish ESCALATION_TOPIC_ARN subject msg)
       (fun _ => sns_publish svc ESCALATION_TOPIC_ARN subject msg).

(** ** lambda_handler *)

Definition lambda_handler (event : Event) : M Call Summary :=
  let detail := default no_detail (detail event) in
  let job_name := default "unknown" (jobName detail) in
  let run_id := default "unknown" (jobRunId detail) in
  let error_msg := default "No error message provided" (message detail) in
  log_context <- get_cloudwatch_logs job_name run_id ;;
  recent_runs <- get_recent_run_history job_name ;;
  let prompt := build_prompt job_name run_id error_msg log_context recent_runs in
  answer <- invoke_agent prompt ("heal-" +:+ run_id) ;;
  let agent_response := fst answer in
  let traces := snd answer in
  emit_metrics job_name traces ;;;
  (* If agent couldn't resolve, send SNS alert *)
  (if Str.contains "ESCALATE" (Str.upper agent_response)
      || Str.contains "HUMAN" (Str.upper agent_response)
   then escalate_to_human job_name run_id error_msg agent_response
   else ret tt) ;;;
  ret {| job_name := job_name;
         run_id := run_id;
         agent_steps := Z.of_nat (length traces);
         resolved := negb (Str.contains "ESCALATE" (Str.upper agent_response));
         summary := Str.take 500 agent_response |}.

End WithClients.
End SelfHealing.

(** * sales_transform_job.py: the schema mapping argument *)

Module SalesTransform.

(** A Python dictionary of texts, its keys in insertion order. *)
Definition dict : Type := list (string * string).

(** [d[k] = v]: the value of a key already there is replaced in place,
    a new key goes to the end. *)
Fixpoint dict_set (k v : string) (d : dict) : dict :=
  match d with
  | [] => [(k, v)]
  | (k', v') :: d' =>
      if String.eqb k' k then (k', v) :: d' else (k', v') :: dict_set k v d'
  end.

(** [d.get(k)] *)
Fixpoint dict_get (k : string) (d : dict) : option string :=
  match d with
  | [] => None
  | (k', v') :: d' => if String.eqb k' k then Some v' else dict_get k d'
  end.

(** [s.split(sep)] for a separator of one character *)
Fixpoint split (sep : ascii) (s : string) : list string :=
  match s with
  | EmptyString => [EmptyString]
  | String c s' =>
      if Ascii.eqb c sep then EmptyString :: split sep s'
      else match split sep s' with
           | [] => [String c EmptyString]
           | x :: l => String c x :: l
           end
  end.

(** [s.split(sep, 1)] unpacked into two names: [None] is the
    [ValueError] of unpacking a list of one element. *)
Fixpoint split_once (sep : ascii) (s : string) : option (string * string) :=
  match s with
  | EmptyString => None
  | String c s' =>
      if Ascii.eqb c sep then Some (EmptyString, s')
      else match split_once sep s' with
           | Some (a, b) => Some (String c a, b)
           | None => None
           end
  end.

(** The body of [for pair in raw_mapping.split(",")]. *)
Definition parse_pair (mapping : dict) (item : string) : option dict :=
  if Str.contains ":" item
  then
    match split_once ":" (Str.strip item) with
    | Some (old, new) => Some (dict_set (Str.strip old) (Str.strip new) mapping)
    | None => None
    end
  else Some mapping.

Fixpoint parse_pairs (mapping : dict) (pairs : list string) : option dict :=
  match pairs with
  | [] => Some mapping
  | item :: pairs' =>
      match parse_pair mapping item with
      | Some mapping' => parse_pairs mapping' pairs'
      | None => None
      end
  end.

(** [SCHEMA_MAPPING] as the module leaves it, from the value of the
    [--schema_mapping] argument ([""] when it is not given). *)
Definition SCHEMA_MAPPING (raw_mapping : string) : option dict :=
  if Str.is_empty raw_mapping then Some []
  else parse_pairs [] (split "," raw_mapping).

End SalesTransform.

(** * Vocabulary of the statements *)

(** The query the generator hands to the validator: the first two steps
    of [execute_nl_query]. *)
Definition generated_query (float_repr : pyfloat -> string) (svc : Handler.Clients)
    (question database : string) : Outcome string :=
  result_of (bind (Handler.get_catalog_schema svc database)
                  (Handler.generate_sql float_repr svc question database)).

(** The log of [k] polling rounds that did not end the loop: a status
    poll, then a sleep of two seconds. *)
Fixpoint waited_rounds (query_id : string) (k : nat) : list Handler.Call :=
  match k with
  | O => []
  | S k' =>
      Handler.AthenaGetQueryExecution query_id :: Handler.TimeSleep 2
      :: waited_rounds query_id k'
  end.

(** The service answers the poll of index [i] with a state that is not
    one of the three terminal ones. *)
Definition still_running (svc : Handler.Clients) (query_id : string) (i : nat) : Prop :=
  exists e, Handler.athena_get_query_execution svc query_id i = Returns e /\
            Handler.State e ∉ ["SUCCEEDED"; "FAILED"; "CANCELLED"].

(** A service call that answers rather than raises. *)
Definition answers {A} (o : Outcome A) : Prop := exists a, o = Returns a.

(** The generation and execution services answer every request, and
    the generation answer has a text at [["content"][0]["text"]]. *)
Definition query_services_answer (svc : Handler.Clients) : Prop :=
  (forall model body,
     exists doc, Handler.bedrock_invoke_model svc model body = Returns doc /\
                 answers (Handler.completion_text doc)) /\
  (forall q db out wg, answers (Handler.athena_start_query_execution svc q db out wg)) /\
  (forall id i, answers (Handler.athena_get_query_execution svc id i)) /\
  (forall id n, answers (Handler.athena_get_query_results svc id n)).

(** The agent and the two sinks answer every request. *)
Definition triage_services_answer (svc : SelfHealing.Clients) : Prop :=
  (forall agent alias session prompt tr,
     answers (SelfHealing.bedrock_invoke_agent svc agent alias session prompt tr)) /\
  (forall ns data, answers (SelfHealing.cloudwatch_put_metric_data svc ns data)) /\
  (forall topic subject msg, answers (SelfHealing.sns_publish svc topic subject msg)).

(** The fields of the failure event, with the defaults of the handler. *)
Definition event_job (event : SelfHealing.Event) : string :=
  default "unknown" (SelfHealing.jobName (default SelfHealing.no_detail (SelfHealing.detail event))).
Definition event_run (event : SelfHealing.Event) : string :=
  default "unknown" (SelfHealing.jobRunId (default SelfHealing.no_detail (SelfHealing.detail event))).
Definition event_error (event : SelfHealing.Event) : string :=
  default "No error message provided"
    (SelfHealing.message (default SelfHealing.no_detail (SelfHealing.detail event))).

(** What the Decision Invoker produces for an event: the narrative and
    the traces, after the two evidence fetches. *)
Definition triage_decision (float_repr : pyfloat -> string) (svc : SelfHealing.Clients)
    (event : SelfHealing.Event) : Outcome (string * list json) :=
  result_of
    (bind (SelfHealing.get_cloudwatch_logs svc (event_job event) (event_run event))
       (fun log_context =>
     bind (SelfHealing.get_recent_run_history svc (event_job event))
       (fun recent_runs =>
     SelfHealing.invoke_agent svc
       (SelfHealing.build_prompt float_repr (event_job event) (event_run event)
          (event_error event) log_context recent_runs)
       ("heal-" +:+ event_run event)))).

(** The metrics request and the alert request of an invocation. *)
Definition metrics_answer (svc : SelfHealing.Clients) (event : SelfHealing.Event)
    (traces : list json) : Outcome unit :=
  SelfHealing.cloudwatch_put_metric_data svc "AgenticDE/SelfHealing"
    (SelfHealing.metric_data (event_job event) traces).

Definition publish_answer (float_repr : pyfloat -> string) (svc : SelfHealing.Clients)
    (event : SelfHealing.Event) (narrative : string) : Outcome unit :=
  SelfHealing.sns_publish svc SelfHealing.ESCALATION_TOPIC_ARN
    (SelfHealing.escalation_subject (event_job event))
    (SelfHealing.escalation_message float_repr (event_job event) (event_run event)
       (event_error event) narrative).

(** The summary the handler builds from a decision. *)
Definition summary_of (event : SelfHealing.Event) (narrative : string) (traces : list json)
    : SelfHealing.Summary :=
  {| SelfHealing.job_name := event_job event;
     SelfHealing.run_id := event_run event;
     SelfHealing.agent_steps := Z.of_nat (length traces);
     SelfHealing.resolved := negb (Str.contains "ESCALATE" (Str.upper narrative));
     SelfHealing.summary := Str.take 500 narrative |}.

(** The narrative carries one of the two escalation markers. *)
Definition escalation_marked (narrative : string) : Prop :=
  substring_nocase "ESCALATE" narrative \/ substring_nocase "HUMAN" narrative.

(** ** Vocabulary of the further properties *)

(** The calls of the first two steps of [execute_nl_query]. *)
Definition generation_calls (float_repr : pyfloat -> string) (svc : Handler.Clients)
    (question database : string) : list Handler.Call :=
  calls_of (bind (Handler.get_catalog_schema svc database)
                 (Handler.generate_sql float_repr svc question database)).

(** A text made of whitespace only. *)
Fixpoint all_space (s : string) : bool :=
  match s with
  | EmptyString => true
  | String c s' => Str.is_space c && all_space s'
  end.

(** A text without any whitespace character. *)
Fixpoint no_space (s : string) : bool :=
  match s with
  | EmptyString => true
  | String c s' => negb (Str.is_space c) && no_space s'
  end.

(** The seconds a log spent in [time.sleep]. *)
Fixpoint slept_seconds (log : list Handler.Call) : Z :=
  match log with
  | [] => 0
  | Handler.TimeSleep s :: log' => s + slept_seconds log'
  | _ :: log' => slept_seconds log'
  end.

Definition is_results_fetch (c : Handler.Call) : bool :=
  match c with Handler.AthenaGetQueryResults _ _ => true | _ => false end.

(** A call to the execution service. *)
Definition is_athena_call (c : Handler.Call) : bool :=
  match c with
  | Handler.AthenaStartQueryExecution _ _ _ _
  | Handler.AthenaGetQueryExecution _
  | Handler.AthenaGetQueryResults _ _ => true
  | _ => false
  end.

Definition is_metric_call (c : SelfHealing.Call) : bool :=
  match c with SelfHealing.CloudwatchPutMetricData _ _ => true | _ => false end.

(** The texts of a completion stream, in order. *)
Fixpoint chunk_texts (completion : list SelfHealing.StreamItem) : string :=
  match completion with
  | [] => EmptyString
  | item :: rest =>
      match SelfHealing.chunk item with
      | Some text => text +:+ chunk_texts rest
      | None => chunk_texts rest
      end
  end.

(** The orchestration trace an item of the stream contributes: it has
    no text chunk and its trace has an [orchestrationTrace]. *)
Definition orchestration_step (item : SelfHealing.StreamItem) : option json :=
  match SelfHealing.chunk item, SelfHealing.trace item with
  | None, Some {| SelfHealing.inner_trace := Some {| SelfHealing.orchestrationTrace := Some t |} |} =>
      Some t
  | _, _ => None
  end.

(** The character [c] occurs in [s]. *)
Fixpoint has_char (c : ascii) (s : string) : bool :=
  match s with
  | EmptyString => false
  | String x s' => Ascii.eqb x c || has_char c s'
  end.

(** A text that does not begin with a whitespace. *)
Definition starts_clean (s : string) : bool :=
  match s with
  | EmptyString => true
  | String c _ => negb (Str.is_space c)
  end.

(** A text that neither begins nor ends with a whitespace. *)
Definition trimmed (s : string) : Prop := Str.strip s = s.

(** A column pair as the mapping argument can carry it: both names
    trimmed and free of commas, the old name free of colons. *)
Definition mappable (kv : string * string) : Prop :=
  trimmed (fst kv) /\ trimmed (snd kv) /\
  has_char ":" (fst kv) = false /\
  has_char "," (fst kv) = false /\ has_char "," (snd kv) = false.

(** The argument text for a list of pairs: [old:new,old2:new2]. *)
Definition render_mapping (l : list (string * string)) : string :=
  Str.join "," (map (fun kv => fst kv +:+ ":" +:+ snd kv) l).

(** The dictionary after assigning the pairs one after the other. *)
Definition assign_all (l : list (string * string)) : SalesTransform.dict :=
  foldl (fun d kv => SalesTransform.dict_set (fst kv) (snd kv) d) [] l.

(** ** Stub services for the concrete runs *)

Definition plain_float_repr (f : pyfloat) : string := "0.0".

(** A Bedrock stub whose single content block is [text]. *)
Definition model_answer (text : string) : json :=
  JDict [ ("content", JList [JDict [("type", JStr "text"); ("text", JStr text)]]) ].

Definition stub_query_clients (catalog : Outcome (list Handler.Table)) (sql_text : string)
    (poll : nat -> Outcome Handler.QueryExecution)
    (retrieved : Outcome (list Handler.Row)) : Handler.Clients :=
  {| Handler.glue_get_tables := fun _ => catalog;
     Handler.bedrock_invoke_model := fun _ _ => Returns (model_answer sql_text);
     Handler.athena_start_query_execution := fun _ _ _ _ => Returns "query-0001";
     Handler.athena_get_query_execution := fun _ i => poll i;
     Handler.athena_get_query_results := fun _ _ => retrieved |}.

Definition running : Outcome Handler.QueryExecution :=
  Returns {| Handler.State := "RUNNING"; Handler.exec_Statistics := None |}.

Definition succeeded_with (bytes millis : Z) : Outcome Handler.QueryExecution :=
  Returns {| Handler.State := "SUCCEEDED";
             Handler.exec_Statistics :=
               Some {| Handler.DataScannedInBytes := Some bytes;
                       Handler.TotalExecutionTimeInMillis := Some millis |} |}.

Definition text_row (cells : list string) : Handler.Row :=
  {| Handler.Data := map (fun s => {| Handler.VarCharValue := Some s |}) cells |}.

(** The catalog is down and the generator answers with a DROP statement. *)
Definition drop_table_clients : Handler.Clients :=
  stub_query_clients (Raises (ClientError "catalog unreachable")) "DROP TABLE sales"
    (fun _ => running) (Returns []).

(** The query succeeds at the second poll. *)
Definition second_poll_clients : Handler.Clients :=
  stub_query_clients (Returns []) "SELECT region, revenue FROM sales"
    (fun i => match i with O => running | _ => succeeded_with 2097152 840 end)
    (Returns [text_row ["region"; "revenue"]; text_row ["emea"; "10"]; text_row ["apac"; "12"]]).

(** A triage stub: both evidence fetches fail, the agent streams
    [narrative] in one chunk after one orchestration trace, and the two
    sinks answer as given. *)
Definition stub_triage_clients (narrative : string) (metrics publish : Outcome unit)
    : SelfHealing.Clients :=
  {| SelfHealing.logs_filter_log_events := fun _ _ _ => Raises (ClientError "log group not found");
     SelfHealing.glue_get_job_runs := fun _ _ => Raises (ClientError "access denied");
     SelfHealing.bedrock_invoke_agent := fun _ _ _ _ _ =>
       Returns [ {| SelfHealing.chunk := None;
                    SelfHealing.trace :=
                      Some {| SelfHealing.inner_trace :=
                                Some {| SelfHealing.orchestrationTrace := Some (JDict []) |} |} |};
                 {| SelfHealing.chunk := Some narrative; SelfHealing.trace := None |} ];
     SelfHealing.cloudwatch_put_metric_data := fun _ _ => metrics;
     SelfHealing.sns_publish := fun _ _ _ => publish |}.

Definition sales_failure : SelfHealing.Event :=
  {| SelfHealing.detail :=
       Some {| SelfHealing.jobName := Some "sales-transform";
               SelfHealing.jobRunId := Some "jr_42";
               SelfHealing.message := Some "AnalysisException: cannot resolve revenue_usd" |} |}.

Definition human_narrative : string := "A human operator must check the IAM role".
Definition escalate_narrative : string := "I have to escalate this failure".
Definition fixed_narrative : string := "Fixed and re-triggered successfully".

(** The query never leaves the running state. *)
Definition never_done_clients : Handler.Clients :=
  stub_query_clients (Returns []) "SELECT count(*) FROM sales" (fun _ => running) (Returns []).

(** The second status poll is throttled. *)
Definition throttled_poll_clients : Handler.Clients :=
  stub_query_clients (Returns []) "SELECT count(*) FROM sales"
    (fun i => match i with O => running | _ => Raises (ClientError "Throttling") end)
    (Returns []).

(** The model call fails. *)
Definition model_down_clients : Handler.Clients :=
  {| Handler.glue_get_tables := fun _ => Returns [];
     Handler.bedrock_invoke_model := fun _ _ => Raises (ClientError "model not ready");
     Handler.athena_start_query_execution := fun _ _ _ _ => Returns "query-0001";
     Handler.athena_get_query_execution := fun _ _ => running;
     Handler.athena_get_query_results := fun _ _ => Returns [] |}.

(** The submission is refused. *)
Definition submission_down_clients : Handler.Clients :=
  {| Handler.glue_get_tables := fun _ => Returns [];
     Handler.bedrock_invoke_model := fun _ _ => Returns (model_answer "SELECT count(*) FROM sales");
     Handler.athena_start_query_execution := fun _ _ _ _ => Raises (ClientError "work group disabled");
     Handler.athena_get_query_execution := fun _ _ => running;
     Handler.athena_get_query_results := fun _ _ => Returns [] |}.

(** A catalog as Glue sends it: the column types are texts. *)
Definition sales_table : Handler.Table :=
  {| Handler.tbl_Name := "sales";
     Handler.tbl_StorageDescriptor :=
       Some {| Handler.Columns :=
                 Some [ {| Handler.col_Name := "region"; Handler.col_Type := Handler.TypeText "string" |};
                        {| Handler.col_Name := "revenue"; Handler.col_Type := Handler.TypeText "double" |} ] |} |}.

Definition glue_catalog_clients : Handler.Clients :=
  stub_query_clients (Returns [sales_table]) "SELECT count(*) FROM sales"
    (fun _ => running) (Returns []).

(** An action-group event with two [question] parameters. *)
Definition asked_twice : Handler.Event :=
  {| Handler.actionGroup := "QueryActions";
     Handler.function := "execute_nl_query";
     Handler.parameters :=
       Some [ {| Handler.p_name := "question"; Handler.p_value := "how many sales" |};
              {| Handler.p_name := "limit"; Handler.p_value := "10" |};
              {| Handler.p_name := "question"; Handler.p_value := "remove the sales table" |} ] |}.

(** The agent invocation fails. *)
Definition agent_down_clients : SelfHealing.Clients :=
  {| SelfHealing.logs_filter_log_events := fun _ _ _ => Returns (Some ["line 1"; "line 2"]);
     SelfHealing.glue_get_job_runs := fun _ _ => Returns [];
     SelfHealing.bedrock_invoke_agent := fun _ _ _ _ _ => Raises (ClientError "agent not prepared");
     SelfHealing.cloudwatch_put_metric_data := fun _ _ => Returns tt;
     SelfHealing.sns_publish := fun _ _ _ => Returns tt |}.

(** * Properties *)

(** ** Strings *)

Section StringFacts.

Lemma str_app_cons (c : ascii) (a b : string) :
  String c a +:+ b = String c (a +:+ b).
Proof. reflexivity. Qed.

Lemma startswith_prefix_of (p s : string) :
  Str.startswith p s = true <-> prefix_of p s.
Proof.
  revert s; induction p as [|a p IH]; intros s; simpl.
  - split; [intros _; by exists s | done].
  - destruct s as [|b s].
    + split; [done | intros [rest H]; discriminate H].
    + destruct (Ascii.eqb_spec a b) as [->|Hne].
      * rewrite IH. split; intros [rest H]; exists rest.
        -- by rewrite str_app_cons, H.
        -- rewrite str_app_cons in H. by injection H.
      * split; [done |].
        intros [rest H]. rewrite str_app_cons in H. injection H as E _.
        by destruct Hne.
Qed.

Lemma contains_substring_of (p s : string) :
  Str.contains p s = true <-> substring_of p s.
Proof.
  induction s as [|c s IH].
  - simpl. rewrite orb_false_r, startswith_prefix_of.
    split.
    + intros [rest H]. by exists "", rest.
    + intros [pre [post H]]. destruct pre; [by exists post | discriminate H].
  - cbn [Str.contains]. rewrite orb_true_iff, IH, startswith_prefix_of.
    split.
    + intros [[rest H] | [pre [post H]]].
      * by exists "", rest.
      * exists (String c pre), post. by rewrite str_app_cons, H.
    + intros [pre [post H]]. destruct pre as [|x pre].
      * left. by exists post.
      * right. exists pre, post. rewrite str_app_cons in H. by injection H.
Qed.

Lemma upper_app (a b : string) :
  Str.upper (a +:+ b) = Str.upper a +:+ Str.upper b.
Proof.
  induction a as [|x a IH]; [done |].
  rewrite str_app_cons. simpl. by rewrite str_app_cons, IH.
Qed.

(** A split of the upper-cased text comes from a split of the text. *)
Lemma upper_split (s a b : string) :
  Str.upper s = a +:+ b ->
  exists s1 s2, s = s1 +:+ s2 /\ Str.upper s1 = a /\ Str.upper s2 = b.
Proof.
  revert s; induction a as [|x a IH]; intros s H.
  - by exists "", s.
  - destruct s as [|c s]; [discriminate H |].
    rewrite str_app_cons in H. simpl in H. injection H as Hx Hs.
    destruct (IH s Hs) as (s1 & s2 & -> & H1 & H2).
    exists (String c s1), s2. simpl. by rewrite Hx, H1.
Qed.

(** Searching an upper-case marker in the upper-cased text is searching
    the marker in the text with letter case ignored. *)
Lemma contains_upper_nocase (marker s : string) :
  Str.upper marker = marker ->
  Str.contains marker (Str.upper s) = true <-> substring_nocase marker s.
Proof.
  intros Hm. rewrite contains_substring_of. split.
  - intros (pre & post & H).
    destruct (upper_split _ _ _ H) as (s1 & s2 & -> & _ & H2).
    destruct (upper_split _ _ _ H2) as (mid & s3 & -> & Hmid & _).
    exists s1, mid, s3. split; [done |].
    unfold same_nocase. by rewrite Hmid, Hm.
  - intros (pre & mid & post & -> & Hmid).
    exists (Str.upper pre), (Str.upper post).
    rewrite !upper_app. unfold same_nocase in Hmid. by rewrite Hmid, Hm.
Qed.

End StringFacts.

(** ** The safety validator *)

Section Validator.
Import Handler.

Lemma first_blocked_none (kws : list string) (upper : string) :
  first_blocked kws upper = None <->
  forall kw, kw ∈ kws -> ~ substring_of kw upper.
Proof.
  induction kws as [|k kws IH]; simpl.
  - split; [intros _ kw H; by apply not_elem_of_nil in H | done].
  - destruct (Str.contains k upper) eqn:E.
    + split; [done |]. intros H. exfalso.
      apply (H k); [left | by apply contains_substring_of].
    + rewrite IH. split.
      * intros H kw Hin. apply elem_of_cons in Hin as [-> | Hin]; [| by apply H].
        rewrite <- contains_substring_of. by rewrite E.
      * intros H kw Hin. apply H. by right.
Qed.

(** C4. [validate_sql] accepts a query exactly when its upper-cased
    text has none of DROP, DELETE, INSERT, UPDATE, ALTER, TRUNCATE,
    CREATE as a substring and, once trimmed, begins with SELECT or WITH.
    The verdict is a function of the query text alone: [validate_sql]
    takes no client and makes no call. *)
Theorem validate_sql_safe_iff (q : string) :
  safe (validate_sql q) = true <->
  (forall kw,
     kw ∈ ["DROP"; "DELETE"; "INSERT"; "UPDATE"; "ALTER"; "TRUNCATE"; "CREATE"] ->
     ~ substring_of kw (Str.upper q)) /\
  (prefix_of "SELECT" (Str.strip (Str.upper q)) \/
   prefix_of "WITH" (Str.strip (Str.upper q))).
Proof.
  unfold validate_sql.
  rewrite <- (first_blocked_none BLOCKED_KEYWORDS), <- !startswith_prefix_of.
  generalize (Str.startswith "SELECT" (Str.strip (Str.upper q)))
             (Str.startswith "WITH" (Str.strip (Str.upper q))).
  intros b1 b2.
  destruct (first_blocked BLOCKED_KEYWORDS (Str.upper q)) as [kw|];
    destruct b1, b2; cbn [safe negb andb]; intuition congruence.
Qed.

(** Every rejecting branch of [validate_sql] fills in the reason key,
    so that [safety_check['reason']] is never a [KeyError]. *)
Lemma rejection_reason (q : string) :
  safe (validate_sql q) = false -> is_Some (reason (validate_sql q)).
Proof.
  unfold validate_sql.
  destruct (first_blocked BLOCKED_KEYWORDS (Str.upper q)) as [kw|]; [by eexists |].
  destruct (negb _ && negb _); [by eexists | discriminate].
Qed.

(** C5. A verdict with [safe = false] carries a reason, and the reason
    is not the empty text. *)
Theorem validate_sql_unsafe_has_reason (q : string) :
  safe (validate_sql q) = false ->
  exists r, reason (validate_sql q) = Some r /\ r <> "".
Proof.
  unfold validate_sql.
  generalize (Str.startswith "SELECT" (Str.strip (Str.upper q)))
             (Str.startswith "WITH" (Str.strip (Str.upper q))).
  intros b1 b2.
  destruct (first_blocked BLOCKED_KEYWORDS (Str.upper q)) as [kw|].
  - intros _. exists ("Blocked keyword detected: " +:+ kw).
    split; [reflexivity | discriminate].
  - destruct b1, b2; cbn [safe reason negb andb]; try discriminate.
    intros _. exists "Only SELECT / WITH queries are permitted".
    split; [reflexivity | discriminate].
Qed.

Lemma validate_sql_unsafe_has_reason_witness :
  safe (validate_sql "SELECT * FROM t; DROP TABLE t") = false /\
  exists r, reason (validate_sql "SELECT * FROM t; DROP TABLE t") = Some r /\ r <> "".
Proof.
  split; [reflexivity |].
  apply (validate_sql_unsafe_has_reason "SELECT * FROM t; DROP TABLE t").
  reflexivity.
Defined.

End Validator.

(** ** Computations *)

Section MonadFacts.
Context {E A B : Type}.

Lemma bind_returns (m : M E A) (k : A -> M E B) (log log' : list E) (a : A) :
  m log = (Returns a, log') -> bind m k log = k a log'.
Proof. intros H. unfold bind. by rewrite H. Qed.

Lemma call_run (c : E) (answer : list E -> Outcome A) (log : list E) :
  call c answer log = (answer log, log ++ [c]).
Proof. reflexivity. Qed.

End MonadFacts.

(** ** The NL query pipeline *)

Section HandlerFacts.
Import Handler.
Variable float_repr : pyfloat -> string.
Variable svc : Clients.

(** The catalog fetch always returns a text and makes one call. *)
Lemma get_catalog_schema_run (database : string) (log : list Call) :
  exists ctx,
    get_catalog_schema svc database log = (Returns ctx, log ++ [GlueGetTables database]) /\
    (forall e, glue_get_tables svc database = Raises e -> ctx = SCHEMA_UNAVAILABLE).
Proof.
  unfold get_catalog_schema, try_except, bind, call, lift, ret.
  destruct (glue_get_tables svc database) as [tables|e].
  - destruct (schema_lines (take 10 tables)) as [lines|e]; eexists; split; done.
  - eexists; split; done.
Qed.

(** Generation makes one call, whatever it gets back. *)
Lemma generate_sql_log (question database ctx : string) (log : list Call) :
  snd (generate_sql float_repr svc question database ctx log) =
  log ++ [BedrockInvokeModel MODEL_ID (model_request float_repr (sql_prompt question database ctx))].
Proof.
  unfold generate_sql, bind, call, lift.
  by destruct (bedrock_invoke_model _ _ _) as [doc|e].
Qed.

(** C6. When the validator rejects the generated query, the pipeline
    returns the error dictionary with the rejection reason and the
    rejected query, and its call log holds no [start_query_execution]. *)
Theorem execute_nl_query_rejection (question database q : string) :
  generated_query float_repr svc question database = Returns q ->
  safe (validate_sql q) = false ->
  exists r,
    reason (validate_sql q) = Some r /\
    result_of (execute_nl_query float_repr svc question database) =
      Returns (Failed {| error := "Query blocked: " +:+ r;
                         sql := Some q; query_id := None |}) /\
    forall c, c ∈ calls_of (execute_nl_query float_repr svc question database) ->
              is_submission c = false.
Proof.
  intros Hgen Hunsafe.
  destruct (rejection_reason q Hunsafe) as (r & Hr).
  exists r. split; [done |].
  unfold generated_query, result_of, calls_of, run in *.
  unfold execute_nl_query.
  destruct (get_catalog_schema_run database []) as (ctx & Hctx & _).
  rewrite (bind_returns _ _ _ _ _ Hctx) in Hgen.
  rewrite !(bind_returns _ _ _ _ _ Hctx).
  pose proof (generate_sql_log question database ctx ([] ++ [GlueGetTables database])) as Hlog.
  destruct (generate_sql float_repr svc question database ctx _) as [[q'|e] log2] eqn:Hg;
    simpl in Hgen, Hlog; [| discriminate Hgen].
  injection Hgen as ->. subst log2.
  rewrite (bind_returns _ _ _ _ _ Hg).
  rewrite Hunsafe. cbn [negb]. unfold bind, lift, ret. rewrite Hr. cbn [from_option fst snd].
  split; [done |].
  intros c Hc. repeat (apply elem_of_cons in Hc as [-> | Hc]; [done |]).
  by apply not_elem_of_nil in Hc.
Qed.

(** *** The poller *)

Lemma is_terminal_elem (state : string) :
  is_terminal state = true <-> state ∈ ["SUCCEEDED"; "FAILED"; "CANCELLED"].
Proof. unfold is_terminal. by rewrite bool_decide_eq_true. Qed.

Lemma polls_in_app (l1 l2 : list Call) : polls_in (l1 ++ l2) = (polls_in l1 + polls_in l2)%nat.
Proof. unfold polls_in. by rewrite filter_app, length_app. Qed.

Lemma polls_in_round (query_id : string) (log : list Call) :
  polls_in ((log ++ [AthenaGetQueryExecution query_id]) ++ [TimeSleep 2]) = S (polls_in log).
Proof. rewrite !polls_in_app. change (polls_in log + 1 + 0 = S (polls_in log))%nat. lia. Qed.

Lemma polls_in_waited (query_id : string) (k : nat) :
  polls_in (waited_rounds query_id k) = k.
Proof.
  induction k as [|k IH]; [done |].
  change (waited_rounds query_id (S k))
    with ([AthenaGetQueryExecution query_id; TimeSleep 2] ++ waited_rounds query_id k).
  rewrite polls_in_app, IH. done.
Qed.

Lemma still_running_not_terminal (query_id : string) (i : nat) :
  still_running svc query_id i ->
  exists e, athena_get_query_execution svc query_id i = Returns e /\
            is_terminal (State e) = false.
Proof.
  intros (e & He & Hn). exists e. split; [done |].
  apply not_true_is_false. by rewrite is_terminal_elem.
Qed.

(** One round of the loop, spelled out. *)
Lemma poll_rounds_step (query_id : string) (n : nat) (log : list Call) :
  poll_rounds svc query_id (S n) log =
  match athena_get_query_execution svc query_id (polls_in log) with
  | Raises err => (Raises err, log ++ [AthenaGetQueryExecution query_id])
  | Returns e =>
      if is_terminal (State e)
      then (Returns (State e, default no_statistics (exec_Statistics e)),
            log ++ [AthenaGetQueryExecution query_id])
      else poll_rounds svc query_id n
             ((log ++ [AthenaGetQueryExecution query_id]) ++ [TimeSleep 2])
  end.
Proof.
  cbn [poll_rounds]. unfold bind at 1. rewrite call_run.
  destruct (athena_get_query_execution svc query_id (polls_in log)) as [e|err]; [| done].
  destruct (is_terminal (State e)); [done |].
  unfold bind at 1. by rewrite call_run.
Qed.

(** What [n] rounds do from a log that already holds some polls. *)
Lemma poll_rounds_timeout (query_id : string) (n : nat) (log : list Call) :
  (forall i, (i < n)%nat -> still_running svc query_id (polls_in log + i)) ->
  poll_rounds svc query_id n log =
    (Returns ("TIMEOUT", no_statistics), log ++ waited_rounds query_id n).
Proof.
  revert log; induction n as [|n IH]; intros log Hrun.
  - unfold poll_rounds, ret. by rewrite app_nil_r.
  - destruct (still_running_not_terminal query_id (polls_in log + 0)) as (e & He & Ht);
      [apply Hrun; lia |].
    rewrite Nat.add_0_r in He.
    rewrite poll_rounds_step, He, Ht, IH.
    + by rewrite <- !app_assoc.
    + intros i Hi. rewrite polls_in_round.
      replace (S (polls_in log) + i)%nat with (polls_in log + S i)%nat by lia.
      apply Hrun. lia.
Qed.

Lemma poll_rounds_terminal (query_id : string) (n k : nat) (e : QueryExecution)
    (log : list Call) :
  (k < n)%nat ->
  (forall i, (i < k)%nat -> still_running svc query_id (polls_in log + i)) ->
  athena_get_query_execution svc query_id (polls_in log + k) = Returns e ->
  State e ∈ ["SUCCEEDED"; "FAILED"; "CANCELLED"] ->
  poll_rounds svc query_id n log =
    (Returns (State e, default no_statistics (exec_Statistics e)),
     log ++ waited_rounds query_id k ++ [AthenaGetQueryExecution query_id]).
Proof.
  revert k log; induction n as [|n IH]; intros k log Hk Hrun He Ht; [lia |].
  destruct k as [|k].
  - rewrite Nat.add_0_r in He.
    rewrite poll_rounds_step, He.
    apply is_terminal_elem in Ht. by rewrite Ht.
  - destruct (still_running_not_terminal query_id (polls_in log + 0)) as (e0 & He0 & Ht0);
      [apply Hrun; lia |].
    rewrite Nat.add_0_r in He0.
    rewrite poll_rounds_step, He0, Ht0.
    rewrite (IH k).
    + by rewrite <- !app_assoc.
    + lia.
    + intros i Hi. rewrite polls_in_round.
      replace (S (polls_in log) + i)%nat with (polls_in log + S i)%nat by lia.
      apply Hrun. lia.
    + rewrite polls_in_round.
      by replace (S (polls_in log) + k)%nat with (polls_in log + S k)%nat by lia.
    + done.
Qed.

(** Whatever the service does, the log grows by whole rounds, possibly
    followed by one last poll, and never by more than [n] polls. *)
Lemma poll_rounds_log (query_id : string) (n : nat) (log : list Call) :
  exists k,
    (snd (poll_rounds svc query_id n log) = log ++ waited_rounds query_id k /\ k = n) \/
    (snd (poll_rounds svc query_id n log) =
       log ++ waited_rounds query_id k ++ [AthenaGetQueryExecution query_id] /\ (k < n)%nat).
Proof.
  revert log; induction n as [|n IH]; intros log.
  - exists 0%nat. left. unfold poll_rounds, ret. cbn. by rewrite app_nil_r.
  - rewrite poll_rounds_step.
    destruct (athena_get_query_execution svc query_id (polls_in log)) as [e|err].
    + destruct (is_terminal (State e)).
      * exists 0%nat. right. split; [reflexivity | lia].
      * destruct (IH ((log ++ [AthenaGetQueryExecution query_id]) ++ [TimeSleep 2]))
          as (k & [[H Hk] | [H Hk]]); exists (S k); [left | right];
          rewrite H; (split; [by rewrite <- !app_assoc | lia]).
    + exists 0%nat. right. split; [reflexivity | lia].
Qed.

(** C7. [poll_query] makes at most floor(timeout_seconds / 2) status
    polls, two seconds apart; it returns the first state answered that
    is one of SUCCEEDED, FAILED, CANCELLED, with the statistics of that
    answer, and otherwise returns TIMEOUT.  With a timeout of 4 seconds
    and a service that stays in a running state it returns TIMEOUT
    after at most 2 polls. *)
Theorem poll_query_bounded (query_id : string) :
  (forall timeout_seconds : Z,
     let n := Z.to_nat (timeout_seconds / 2) in
     let m := poll_query svc query_id timeout_seconds in
     (polls_in (calls_of m) <= n)%nat /\
     (0 <= timeout_seconds -> Z.of_nat (polls_in (calls_of m)) <= timeout_seconds / 2) /\
     (exists k, calls_of m = waited_rounds query_id k \/
                calls_of m = waited_rounds query_id k ++ [AthenaGetQueryExecution query_id]) /\
     (forall k e,
        (k < n)%nat ->
        (forall i, (i < k)%nat -> still_running svc query_id i) ->
        athena_get_query_execution svc query_id k = Returns e ->
        State e ∈ ["SUCCEEDED"; "FAILED"; "CANCELLED"] ->
        result_of m = Returns (State e, default no_statistics (exec_Statistics e)) /\
        polls_in (calls_of m) = S k) /\
     ((forall i, (i < n)%nat -> still_running svc query_id i) ->
      result_of m = Returns ("TIMEOUT", no_statistics) /\
      polls_in (calls_of m) = n)) /\
  ((forall i, still_running svc query_id i) ->
   result_of (poll_query svc query_id 4) = Returns ("TIMEOUT", no_statistics) /\
   (polls_in (calls_of (poll_query svc query_id 4)) <= 2)%nat).
Proof.
  assert (Hgen : forall n,
    let m := poll_rounds svc query_id n in
    (polls_in (calls_of m) <= n)%nat /\
    (exists k, calls_of m = waited_rounds query_id k \/
               calls_of m = waited_rounds query_id k ++ [AthenaGetQueryExecution query_id]) /\
    (forall k e,
        (k < n)%nat ->
        (forall i, (i < k)%nat -> still_running svc query_id i) ->
        athena_get_query_execution svc query_id k = Returns e ->
        State e ∈ ["SUCCEEDED"; "FAILED"; "CANCELLED"] ->
        result_of m = Returns (State e, default no_statistics (exec_Statistics e)) /\
        polls_in (calls_of m) = S k) /\
    ((forall i, (i < n)%nat -> still_running svc query_id i) ->
      result_of m = Returns ("TIMEOUT", no_statistics) /\
      polls_in (calls_of m) = n)).
  { intros n m. unfold m, calls_of, result_of, run. repeat split.
    - destruct (poll_rounds_log query_id n []) as (k & [[H ->] | [H Hk]]); rewrite H; cbn [app].
      + by rewrite polls_in_waited.
      + rewrite polls_in_app, polls_in_waited.
        change (polls_in [AthenaGetQueryExecution query_id]) with 1%nat. lia.
    - destruct (poll_rounds_log query_id n []) as (k & [[H _] | [H _]]);
        exists k; rewrite H; [by left | by right].
    - by rewrite (poll_rounds_terminal query_id n k e []).
    - rewrite (poll_rounds_terminal query_id n k e []) by done.
      cbn [snd app]. rewrite polls_in_app, polls_in_waited.
      change (polls_in [AthenaGetQueryExecution query_id]) with 1%nat. lia.
    - by rewrite (poll_rounds_timeout query_id n []).
    - rewrite (poll_rounds_timeout query_id n []) by done.
      cbn [snd app]. by rewrite polls_in_waited. }
  split.
  - intros t n m. unfold m, poll_query. fold n.
    destruct (Hgen n) as (Hle & Hshape & Hterm & Htime).
    split; [exact Hle |]. split; [| split; [exact Hshape | split; [exact Hterm | exact Htime]]].
    intros Ht. assert (0 <= t / 2) as Hq by (apply Z.div_pos; lia).
    apply Nat2Z.inj_le in Hle. unfold n in Hle |- *.
    by rewrite Z2Nat.id in Hle.
  - intros Hrun. unfold poll_query. change (Z.to_nat (4 / 2)) with 2%nat.
    destruct (Hgen 2%nat) as (Hle & _ & _ & Htime).
    split; [apply Htime; auto | done].
Qed.

(** *** The formatter *)

(** C8. The first retrieved row gives the columns and every later row
    is a data row, each cell being its text or the empty text when it
    has none; [row_count] is the number of data rows.  With no row
    retrieved the payload has [row_count = 0] and no column and no row. *)
Theorem fetch_results_shape (query_id sql : string) (stats : Statistics)
    (retrieved : list Row) :
  athena_get_query_results svc query_id 100 = Returns retrieved ->
  exists p,
    result_of (fetch_results svc query_id sql stats) = Returns p /\
    row_count p = Z.of_nat (length (rows p)) /\
    match retrieved with
    | [] => row_count p = 0 /\ columns p = [] /\ rows p = []
    | header :: data =>
        columns p = map (fun c => default "" (VarCharValue c)) (Data header) /\
        rows p = map (fun row => map (fun c => default "" (VarCharValue c)) (Data row)) data
    end.
Proof.
  intros Hrows.
  unfold result_of, run, fetch_results.
  unfold bind at 1. rewrite call_run, Hrows.
  destruct retrieved as [|header data]; eexists; (split; [reflexivity |]); by cbn.
Qed.

(** *** The entry point *)

(** C10. An event whose function is not [execute_nl_query] makes no
    call at all and gets the response envelope whose body is the JSON
    text of the dictionary with the single key [error] bound to
    [Unknown function: ] followed by the function name. *)
Theorem lambda_handler_unknown_function (event : Event) :
  function event <> "execute_nl_query" ->
  run (lambda_handler float_repr svc event) =
    (Returns
       (JDict
          [ ("messageVersion", JStr "1.0");
            ("response",
             JDict
               [ ("actionGroup", JStr (actionGroup event));
                 ("function", JStr (function event));
                 ("functionResponse",
                  JDict
                    [("responseBody",
                      JDict
                        [("TEXT",
                          JDict
                            [("body",
                              JStr (Json.dumps float_repr None
                                      (JDict [("error",
                                               JStr ("Unknown function: " +:+ function event))])))])])]) ]) ]),
     []).
Proof.
  intros Hne. apply String.eqb_neq in Hne.
  unfold run, lambda_handler. by rewrite Hne.
Qed.

(** *** The pipeline returns when its services answer *)

Lemma poll_rounds_answers (query_id : string) (n : nat) (log : list Call) :
  (forall i, answers (athena_get_query_execution svc query_id i)) ->
  exists r log', poll_rounds svc query_id n log = (Returns r, log').
Proof.
  intros Hpoll. revert log; induction n as [|n IH]; intros log.
  - by eexists _, _.
  - rewrite poll_rounds_step.
    destruct (Hpoll (polls_in log)) as [e ->].
    destruct (is_terminal (State e)); [by eexists _, _ | apply IH].
Qed.

Lemma generate_sql_run (question database ctx : string) (doc : json) (q : string)
    (log : list Call) :
  bedrock_invoke_model svc MODEL_ID (model_request float_repr (sql_prompt question database ctx))
    = Returns doc ->
  completion_text doc = Returns q ->
  generate_sql float_repr svc question database ctx log =
    (Returns q,
     log ++ [BedrockInvokeModel MODEL_ID (model_request float_repr (sql_prompt question database ctx))]).
Proof.
  intros Hdoc Hq. unfold generate_sql, bind, call, lift. by rewrite Hdoc, Hq.
Qed.

Lemma execute_nl_query_answers (question database : string) :
  query_services_answer svc ->
  answers (result_of (execute_nl_query float_repr svc question database)).
Proof.
  intros (Hgen & Hsub & Hpoll & Hres).
  unfold result_of, run, execute_nl_query.
  destruct (get_catalog_schema_run database []) as (ctx & Hctx & _).
  rewrite (bind_returns _ _ _ _ _ Hctx).
  destruct (Hgen MODEL_ID (model_request float_repr (sql_prompt question database ctx)))
    as (doc & Hdoc & q & Hq).
  rewrite (bind_returns _ _ _ _ _ (generate_sql_run question database ctx doc q _ Hdoc Hq)).
  destruct (safe (validate_sql q)) eqn:Hsafe; cbn [negb].
  - unfold run_athena_query. unfold bind at 1. rewrite call_run.
    destruct (Hsub q database ATHENA_OUTPUT "primary") as [id ->].
    unfold poll_query.
    match goal with
    | |- context [bind (poll_rounds svc id ?n) _ ?l] =>
        destruct (poll_rounds_answers id n l (Hpoll id)) as ([state stats] & log' & Hp)
    end.
    rewrite (bind_returns _ _ _ _ _ Hp). cbn [fst snd].
    destruct (negb (state =? "SUCCEEDED")%string); [by eexists |].
    unfold fetch_results. unfold bind at 1 2. rewrite call_run.
    destruct (Hres id 100) as [rows ->].
    destruct rows; by eexists.
  - destruct (rejection_reason q Hsafe) as (r & Hr).
    unfold bind, lift, ret. rewrite Hr. by eexists.
Qed.

End HandlerFacts.

(** ** The self-healing pipeline *)

Section TriageFacts.
Import SelfHealing.
Variable float_repr : pyfloat -> string.
Variable svc : Clients.

(** The log fetch always returns a text and makes one call. *)
Lemma get_cloudwatch_logs_run (job_name run_id : string) (log : list Call) :
  exists text,
    get_cloudwatch_logs svc job_name run_id log =
      (Returns text, log ++ [LogsFilterLogEvents "/aws-glue/jobs/error" run_id 20]) /\
    (forall e, logs_filter_log_events svc "/aws-glue/jobs/error" run_id 20 = Raises e ->
               text = "Could not retrieve logs: " +:+ exn_str e).
Proof.
  unfold get_cloudwatch_logs, try_except, bind, call, ret.
  destruct (logs_filter_log_events svc _ run_id 20) as [events|e].
  - eexists; split; [reflexivity | discriminate].
  - eexists; split; [reflexivity |]. by intros e' [= <-].
Qed.

(** The run-history fetch always returns a list and makes one call. *)
Lemma get_recent_run_history_run (job_name : string) (log : list Call) :
  exists runs,
    get_recent_run_history svc job_name log =
      (Returns runs, log ++ [GlueGetJobRuns job_name 3]) /\
    (forall e, glue_get_job_runs svc job_name 3 = Raises e -> runs = []).
Proof.
  unfold get_recent_run_history, try_except, bind, call, ret.
  destruct (glue_get_job_runs svc job_name 3) as [runs|e].
  - eexists; split; [reflexivity | discriminate].
  - eexists; split; [reflexivity | done].
Qed.

Lemma notifications_app (l1 l2 : list Call) :
  notifications (l1 ++ l2) = (notifications l1 + notifications l2)%nat.
Proof. unfold notifications. by rewrite filter_app, length_app. Qed.

(** The marker test of the handler, read as a statement on the narrative. *)
Lemma marker_test_spec (narrative : string) :
  Str.contains "ESCALATE" (Str.upper narrative) || Str.contains "HUMAN" (Str.upper narrative) = true
  <-> escalation_marked narrative.
Proof.
  unfold escalation_marked.
  rewrite orb_true_iff, !contains_upper_nocase by reflexivity. done.
Qed.

(** The handler after the decision: metrics, then the alert when a
    marker is present, then the summary. *)
Lemma lambda_handler_after_decision (event : Event) (narrative : string) (traces : list json) :
  triage_decision float_repr svc event = Returns (narrative, traces) ->
  exists log0,
    notifications log0 = 0%nat /\
    run (lambda_handler float_repr svc event) =
      let metric_call :=
        CloudwatchPutMetricData "AgenticDE/SelfHealing" (metric_data (event_job event) traces) in
      let publish_call :=
        SnsPublish ESCALATION_TOPIC_ARN (escalation_subject (event_job event))
          (escalation_message float_repr (event_job event) (event_run event)
             (event_error event) narrative) in
      match metrics_answer svc event traces with
      | Raises e => (Raises e, log0 ++ [metric_call])
      | Returns _ =>
          if Str.contains "ESCALATE" (Str.upper narrative)
             || Str.contains "HUMAN" (Str.upper narrative)
          then
            match publish_answer float_repr svc event narrative with
            | Raises e => (Raises e, log0 ++ [metric_call; publish_call])
            | Returns _ =>
                (Returns (summary_of event narrative traces), log0 ++ [metric_call; publish_call])
            end
          else (Returns (summary_of event narrative traces), log0 ++ [metric_call])
      end.
Proof.
  unfold triage_decision, result_of, run, lambda_handler.
  fold (event_job event) (event_run event) (event_error event).
  destruct (get_cloudwatch_logs_run (event_job event) (event_run event) [])
    as (text & Hlogs & _).
  destruct (get_recent_run_history_run (event_job event)
              ([] ++ [LogsFilterLogEvents "/aws-glue/jobs/error" (event_run event) 20]))
    as (runs & Hruns & _).
  rewrite !(bind_returns _ _ _ _ _ Hlogs), !(bind_returns _ _ _ _ _ Hruns).
  set (prompt := build_prompt float_repr (event_job event) (event_run event)
                   (event_error event) text runs).
  set (log2 := ([] ++ [LogsFilterLogEvents "/aws-glue/jobs/error" (event_run event) 20]) ++
      [GlueGetJobRuns (event_job event) 3]).
  intros Hdec.
  assert (Hinv : invoke_agent svc prompt ("heal-" +:+ event_run event) log2 =
            (Returns (narrative, traces),
             log2 ++ [BedrockInvokeAgent AGENT_ID AGENT_ALIAS_ID ("heal-" +:+ event_run event) prompt true])).
  { revert Hdec. unfold invoke_agent, bind, call, ret.
    destruct (bedrock_invoke_agent svc _ _ _ _ _) as [completion|e]; cbn [fst]; [| discriminate].
    by intros [= ->]. }
  rewrite (bind_returns _ _ _ _ _ Hinv). cbn [fst snd].
  eexists. split; [shelve |].
  unfold emit_metrics, metrics_answer. unfold bind at 1. rewrite call_run.
  destruct (cloudwatch_put_metric_data svc _ _) as [[]|e]; [| reflexivity].
  unfold escalate_to_human, publish_answer.
  destruct (Str.contains "ESCALATE" (Str.upper narrative)
            || Str.contains "HUMAN" (Str.upper narrative)).
  - unfold bind at 1. rewrite call_run.
    destruct (sns_publish svc _ _ _) as [[]|e]; unfold ret, summary_of; by rewrite <- !app_assoc.
  - unfold bind, ret, summary_of. reflexivity.
  Unshelve. reflexivity.
Qed.


(** *** Routing *)

(** C2, as the code has it.  When the metrics call of the invocation
    answers, the handler publishes exactly one alert to the escalation
    topic if the narrative contains ESCALATE or HUMAN, letter case
    ignored, and publishes nothing otherwise. *)
Theorem notification_on_either_marker (event : Event) (narrative : string)
    (traces : list json) :
  triage_decision float_repr svc event = Returns (narrative, traces) ->
  metrics_answer svc event traces = Returns tt ->
  (escalation_marked narrative ->
   notifications (calls_of (lambda_handler float_repr svc event)) = 1%nat /\
   SnsPublish ESCALATION_TOPIC_ARN (escalation_subject (event_job event))
     (escalation_message float_repr (event_job event) (event_run event)
        (event_error event) narrative)
     ∈ calls_of (lambda_handler float_repr svc event)) /\
  (~ escalation_marked narrative ->
   notifications (calls_of (lambda_handler float_repr svc event)) = 0%nat).
Proof.
  intros Hdec Hmet.
  destruct (lambda_handler_after_decision event narrative traces Hdec) as (log0 & Hlog0 & Hrun).
  unfold calls_of. rewrite Hrun, Hmet. cbv zeta.
  pose proof (marker_test_spec narrative) as Hspec.
  destruct (Str.contains "ESCALATE" (Str.upper narrative)
            || Str.contains "HUMAN" (Str.upper narrative)).
  - split; [intros _ | intros Hn; destruct Hn; by apply Hspec].
    destruct (publish_answer float_repr svc event narrative) as [[]|e]; cbn [snd];
      (split; [rewrite notifications_app, Hlog0; reflexivity
              | apply elem_of_app; right; right; left]).
  - split; [intros Hm; apply Hspec in Hm; discriminate Hm | intros _].
    cbn [snd]. rewrite notifications_app, Hlog0. reflexivity.
Qed.

(** C3, as the code has it.  Neither sink call is guarded: an
    exception of the metrics call, or of the alert call when a marker
    is present, leaves the handler as it was raised; the handler
    returns its summary when every sink call it makes answers. *)
Theorem sink_failures_propagate (event : Event) (narrative : string)
    (traces : list json) :
  triage_decision float_repr svc event = Returns (narrative, traces) ->
  (forall e,
     metrics_answer svc event traces = Raises e ->
     result_of (lambda_handler float_repr svc event) = Raises e) /\
  (forall e,
     metrics_answer svc event traces = Returns tt ->
     escalation_marked narrative ->
     publish_answer float_repr svc event narrative = Raises e ->
     result_of (lambda_handler float_repr svc event) = Raises e) /\
  (metrics_answer svc event traces = Returns tt ->
   ~ escalation_marked narrative \/ publish_answer float_repr svc event narrative = Returns tt ->
   exists s,
     result_of (lambda_handler float_repr svc event) = Returns s /\
     job_name s = event_job event /\
     run_id s = event_run event /\
     agent_steps s = Z.of_nat (length traces) /\
     summary s = Str.take 500 narrative).
Proof.
  intros Hdec.
  destruct (lambda_handler_after_decision event narrative traces Hdec) as (log0 & _ & Hrun).
  unfold result_of. rewrite Hrun. cbv zeta.
  pose proof (marker_test_spec narrative) as Hspec.
  split; [| split].
  - intros e ->. reflexivity.
  - intros e -> Hm ->. apply Hspec in Hm. rewrite Hm. reflexivity.
  - intros -> Hcase.
    destruct (Str.contains "ESCALATE" (Str.upper narrative)
              || Str.contains "HUMAN" (Str.upper narrative)).
    + destruct Hcase as [Hn | ->]; [destruct Hn; by apply Hspec |].
      eexists. split; [reflexivity | done].
    + eexists. split; [reflexivity | done].
Qed.

(** *** The handler returns when the agent and the sinks answer *)

Lemma triage_decision_answers (event : Event) :
  (forall agent alias session prompt tr,
     answers (bedrock_invoke_agent svc agent alias session prompt tr)) ->
  answers (triage_decision float_repr svc event).
Proof.
  intros Hagent. unfold answers, triage_decision, result_of, run.
  destruct (get_cloudwatch_logs_run (event_job event) (event_run event) [])
    as (text & Hlogs & _).
  destruct (get_recent_run_history_run (event_job event)
              ([] ++ [LogsFilterLogEvents "/aws-glue/jobs/error" (event_run event) 20]))
    as (runs & Hruns & _).
  rewrite (bind_returns _ _ _ _ _ Hlogs), (bind_returns _ _ _ _ _ Hruns).
  unfold invoke_agent, bind, call, ret.
  destruct (Hagent AGENT_ID AGENT_ALIAS_ID ("heal-" +:+ event_run event)
              (build_prompt float_repr (event_job event) (event_run event)
                 (event_error event) text runs) true) as [completion ->].
  by eexists.
Qed.

Lemma lambda_handler_answers (event : Event) :
  triage_services_answer svc ->
  answers (result_of (lambda_handler float_repr svc event)).
Proof.
  intros (Hagent & Hmet & Hpub).
  destruct (triage_decision_answers event Hagent) as [[narrative traces] Hdec].
  destruct (lambda_handler_after_decision event narrative traces Hdec) as (log0 & _ & Hrun).
  unfold answers, result_of. rewrite Hrun. cbv zeta.
  unfold metrics_answer, publish_answer.
  destruct (Hmet "AgenticDE/SelfHealing" (metric_data (event_job event) traces)) as [u ->].
  destruct (Hpub ESCALATION_TOPIC_ARN (escalation_subject (event_job event))
              (escalation_message float_repr (event_job event) (event_run event)
                 (event_error event) narrative)) as [u' ->].
  destruct (_ || _); by eexists.
Qed.

End TriageFacts.

(** ** Fail-soft evidence fetches *)

(** C9. None of the three collectors raises.  When its fetch fails the
    catalog fetcher returns the schema-unavailable sentinel, the log
    collector returns a placeholder text and the run-history collector
    returns the empty list; and each pipeline returns a result whenever
    its other services answer, whatever the fetches did. *)
Theorem collectors_fail_soft (float_repr : pyfloat -> string) :
  (forall (svc : Handler.Clients) (database : string),
     exists ctx,
       result_of (Handler.get_catalog_schema svc database) = Returns ctx /\
       (forall e, Handler.glue_get_tables svc database = Raises e ->
                  ctx = "Schema unavailable — generate best-effort SQL")) /\
  (forall (svc : SelfHealing.Clients) (job_name run_id : string),
     exists text,
       result_of (SelfHealing.get_cloudwatch_logs svc job_name run_id) = Returns text /\
       (forall e,
          SelfHealing.logs_filter_log_events svc "/aws-glue/jobs/error" run_id 20 = Raises e ->
          text = "Could not retrieve logs: " +:+ exn_str e)) /\
  (forall (svc : SelfHealing.Clients) (job_name : string),
     exists runs,
       result_of (SelfHealing.get_recent_run_history svc job_name) = Returns runs /\
       (forall e, SelfHealing.glue_get_job_runs svc job_name 3 = Raises e -> runs = [])) /\
  (forall (svc : Handler.Clients) (question database : string),
     query_services_answer svc ->
     answers (result_of (Handler.execute_nl_query float_repr svc question database))) /\
  (forall (svc : SelfHealing.Clients) (event : SelfHealing.Event),
     triage_services_answer svc ->
     answers (result_of (SelfHealing.lambda_handler float_repr svc event))).
Proof.
  repeat split.
  - intros svc database.
    destruct (get_catalog_schema_run svc database []) as (ctx & Hrun & Hfail).
    exists ctx. unfold result_of, run. by rewrite Hrun.
  - intros svc job_name run_id.
    destruct (get_cloudwatch_logs_run svc job_name run_id []) as (text & Hrun & Hfail).
    exists text. unfold result_of, run. by rewrite Hrun.
  - intros svc job_name.
    destruct (get_recent_run_history_run svc job_name []) as (runs & Hrun & Hfail).
    exists runs. unfold result_of, run. by rewrite Hrun.
  - intros svc question database. apply execute_nl_query_answers.
  - intros svc event. apply lambda_handler_answers.
Qed.

(** ** Concrete runs *)

Section HandlerRuns.
Import Handler.

Lemma execute_nl_query_rejection_witness :
  generated_query plain_float_repr drop_table_clients "remove the sales table" "data_warehouse"
    = Returns "DROP TABLE sales" /\
  safe (validate_sql "DROP TABLE sales") = false /\
  exists r,
    reason (validate_sql "DROP TABLE sales") = Some r /\
    result_of (execute_nl_query plain_float_repr drop_table_clients
                 "remove the sales table" "data_warehouse") =
      Returns (Failed {| error := "Query blocked: " +:+ r;
                         sql := Some "DROP TABLE sales"; query_id := None |}) /\
    forall c, c ∈ calls_of (execute_nl_query plain_float_repr drop_table_clients
                              "remove the sales table" "data_warehouse") ->
              is_submission c = false.
Proof.
  split; [vm_compute; reflexivity |].
  split; [vm_compute; reflexivity |].
  apply (execute_nl_query_rejection plain_float_repr drop_table_clients
           "remove the sales table" "data_warehouse" "DROP TABLE sales");
    vm_compute; reflexivity.
Defined.

(** With the stub that succeeds at the second poll, a timeout of 60
    seconds gives SUCCEEDED after two polls. *)
Lemma poll_query_bounded_witness :
  (1 < Z.to_nat (60 / 2))%nat /\
  (forall i, (i < 1)%nat -> still_running second_poll_clients "query-0001" i) /\
  athena_get_query_execution second_poll_clients "query-0001" 1 = succeeded_with 2097152 840 /\
  "SUCCEEDED" ∈ ["SUCCEEDED"; "FAILED"; "CANCELLED"] /\
  result_of (poll_query second_poll_clients "query-0001" 60) =
    Returns ("SUCCEEDED",
             {| DataScannedInBytes := Some 2097152; TotalExecutionTimeInMillis := Some 840 |}) /\
  polls_in (calls_of (poll_query second_poll_clients "query-0001" 60)) = 2%nat.
Proof.
  assert (H1 : (1 < Z.to_nat (60 / 2))%nat) by (vm_compute; lia).
  assert (H2 : forall i, (i < 1)%nat -> still_running second_poll_clients "query-0001" i).
  { intros i Hi. assert (i = 0%nat) as -> by lia.
    eexists. split; [reflexivity |].
    apply (bool_decide_eq_false_1 (_ ∈ _)). vm_compute. reflexivity. }
  assert (H4 : "SUCCEEDED" ∈ ["SUCCEEDED"; "FAILED"; "CANCELLED"]) by left.
  split; [exact H1 |]. split; [exact H2 |]. split; [reflexivity |]. split; [exact H4 |].
  destruct (proj1 (poll_query_bounded second_poll_clients "query-0001") 60)
    as (_ & _ & _ & Hterm & _).
  exact (Hterm 1%nat _ H1 H2 eq_refl H4).
Defined.

Lemma fetch_results_shape_witness :
  athena_get_query_results second_poll_clients "query-0001" 100 =
    Returns [text_row ["region"; "revenue"]; text_row ["emea"; "10"]; text_row ["apac"; "12"]] /\
  exists p,
    result_of (fetch_results second_poll_clients "query-0001" "SELECT 1" no_statistics) = Returns p /\
    row_count p = Z.of_nat (length (rows p)) /\
    columns p = ["region"; "revenue"] /\
    rows p = [["emea"; "10"]; ["apac"; "12"]].
Proof.
  split; [reflexivity |].
  destruct (fetch_results_shape second_poll_clients "query-0001" "SELECT 1" no_statistics _ eq_refl)
    as (p & Hp & Hcount & Hcols & Hrows).
  exists p. repeat split; assumption.
Defined.

Lemma lambda_handler_unknown_function_witness :
  "describe_table" <> "execute_nl_query" /\
  run (lambda_handler plain_float_repr drop_table_clients
         {| actionGroup := "QueryActions"; function := "describe_table"; parameters := None |}) =
    (Returns
       (envelope "QueryActions" "describe_table"
          (Json.dumps plain_float_repr None
             (JDict [("error", JStr "Unknown function: describe_table")]))),
     []).
Proof.
  split; [discriminate |].
  apply (lambda_handler_unknown_function plain_float_repr drop_table_clients
           {| actionGroup := "QueryActions"; function := "describe_table"; parameters := None |}).
  discriminate.
Defined.

End HandlerRuns.

Section TriageRuns.
Import SelfHealing.

(** C1 at a narrative that names a human and never says ESCALATE: the
    alert is published and the summary still says [resolved = true]. *)
Theorem resolved_despite_human_marker :
  triage_decision plain_float_repr
    (stub_triage_clients human_narrative (Returns tt) (Returns tt)) sales_failure
    = Returns (human_narrative, [JDict []]) /\
  escalation_marked human_narrative /\
  notifications
    (calls_of (lambda_handler plain_float_repr
                 (stub_triage_clients human_narrative (Returns tt) (Returns tt))
                 sales_failure)) = 1%nat /\
  exists s,
    result_of (lambda_handler plain_float_repr
                 (stub_triage_clients human_narrative (Returns tt) (Returns tt))
                 sales_failure) = Returns s /\
    resolved s = true.
Proof.
  split; [vm_compute; reflexivity |].
  split; [apply marker_test_spec; vm_compute; reflexivity |].
  split; [vm_compute; reflexivity |].
  eexists. split; [vm_compute; reflexivity | reflexivity].
Qed.

(** The claim of C2 fails at the same narrative: it has no ESCALATE in
    it, in any letter case, and one alert is published. *)
Lemma notification_without_escalate_marker :
  ~ substring_nocase "ESCALATE" human_narrative /\
  notifications
    (calls_of (lambda_handler plain_float_repr
                 (stub_triage_clients human_narrative (Returns tt) (Returns tt))
                 sales_failure)) = 1%nat.
Proof.
  split; [| vm_compute; reflexivity].
  intros H. apply contains_upper_nocase in H; [| reflexivity].
  vm_compute in H. discriminate H.
Qed.

Lemma notification_on_either_marker_witness :
  triage_decision plain_float_repr
    (stub_triage_clients human_narrative (Returns tt) (Returns tt)) sales_failure
    = Returns (human_narrative, [JDict []]) /\
  metrics_answer (stub_triage_clients human_narrative (Returns tt) (Returns tt))
    sales_failure [JDict []] = Returns tt /\
  escalation_marked human_narrative /\
  notifications
    (calls_of (lambda_handler plain_float_repr
                 (stub_triage_clients human_narrative (Returns tt) (Returns tt))
                 sales_failure)) = 1%nat.
Proof.
  assert (Hm : escalation_marked human_narrative)
    by (apply marker_test_spec; vm_compute; reflexivity).
  split; [vm_compute; reflexivity |].
  split; [reflexivity |].
  split; [exact Hm |].
  exact (proj1 (proj1 (notification_on_either_marker plain_float_repr
                         (stub_triage_clients human_narrative (Returns tt) (Returns tt))
                         sales_failure human_narrative [JDict []] eq_refl eq_refl) Hm)).
Defined.

(** The claim of C3 fails when a sink raises: the handler raises too. *)
Lemma sink_failure_reaches_caller :
  result_of (lambda_handler plain_float_repr
               (stub_triage_clients fixed_narrative (Raises (ClientError "Throttling")) (Returns tt))
               sales_failure) = Raises (ClientError "Throttling") /\
  result_of (lambda_handler plain_float_repr
               (stub_triage_clients escalate_narrative (Returns tt)
                  (Raises (ClientError "Topic not found")))
               sales_failure) = Raises (ClientError "Topic not found").
Proof. split; vm_compute; reflexivity. Qed.

Lemma sink_failures_propagate_witness :
  triage_decision plain_float_repr
    (stub_triage_clients escalate_narrative (Returns tt) (Raises (ClientError "Topic not found")))
    sales_failure = Returns (escalate_narrative, [JDict []]) /\
  metrics_answer
    (stub_triage_clients escalate_narrative (Returns tt) (Raises (ClientError "Topic not found")))
    sales_failure [JDict []] = Returns tt /\
  escalation_marked escalate_narrative /\
  publish_answer plain_float_repr
    (stub_triage_clients escalate_narrative (Returns tt) (Raises (ClientError "Topic not found")))
    sales_failure escalate_narrative = Raises (ClientError "Topic not found") /\
  result_of (lambda_handler plain_float_repr
               (stub_triage_clients escalate_narrative (Returns tt)
                  (Raises (ClientError "Topic not found")))
               sales_failure) = Raises (ClientError "Topic not found").
Proof.
  assert (Hm : escalation_marked escalate_narrative)
    by (apply marker_test_spec; vm_compute; reflexivity).
  split; [vm_compute; reflexivity |].
  split; [reflexivity |].
  split; [exact Hm |].
  split; [reflexivity |].
  exact (proj1 (proj2 (sink_failures_propagate plain_float_repr
                         (stub_triage_clients escalate_narrative (Returns tt)
                            (Raises (ClientError "Topic not found")))
                         sales_failure escalate_narrative [JDict []] eq_refl))
           (ClientError "Topic not found") eq_refl Hm eq_refl).
Defined.

Lemma stub_triage_services_answer (narrative : string) :
  triage_services_answer (stub_triage_clients narrative (Returns tt) (Returns tt)).
Proof. repeat split; intros; by eexists. Qed.

(** Both evidence fetches of the stub fail and the handler returns. *)
Lemma collectors_fail_soft_witness :
  triage_services_answer (stub_triage_clients fixed_narrative (Returns tt) (Returns tt)) /\
  logs_filter_log_events (stub_triage_clients fixed_narrative (Returns tt) (Returns tt))
    "/aws-glue/jobs/error" "jr_42" 20 = Raises (ClientError "log group not found") /\
  glue_get_job_runs (stub_triage_clients fixed_narrative (Returns tt) (Returns tt))
    "sales-transform" 3 = Raises (ClientError "access denied") /\
  answers (result_of (lambda_handler plain_float_repr
                        (stub_triage_clients fixed_narrative (Returns tt) (Returns tt))
                        sales_failure)).
Proof.
  split; [apply stub_triage_services_answer |].
  split; [reflexivity |].
  split; [reflexivity |].
  apply (proj2 (proj2 (proj2 (proj2 (collectors_fail_soft plain_float_repr))))).
  apply stub_triage_services_answer.
Defined.

End TriageRuns.

(** * Further properties *)

(** ** Whitespace and the validator *)

Section ValidatorMore.
Import Handler.

Lemma first_blocked_some (kws : list string) (upper kw : string) :
  first_blocked kws upper = Some kw ->
  exists earlier later,
    kws = earlier ++ kw :: later /\
    substring_of kw upper /\
    forall k, k ∈ earlier -> ~ substring_of k upper.
Proof.
  induction kws as [|k kws IH]; cbn [first_blocked]; [done |].
  destruct (Str.contains k upper) eqn:E.
  - intros [= <-]. exists [], kws. split; [done |].
    split; [by apply contains_substring_of |].
    intros k' Hk'. by apply not_elem_of_nil in Hk'.
  - intros H. destruct (IH H) as (earlier & later & -> & Hkw & Hnone).
    exists (k :: earlier), later. split; [done |]. split; [done |].
    intros k' Hk'. apply elem_of_cons in Hk' as [-> | Hk']; [| by apply Hnone].
    rewrite <- contains_substring_of. by rewrite E.
Qed.

(** A query that has a blocked keyword in its upper-cased text is
    rejected whatever it starts with, and the reason names the first
    keyword of the list that occurs, not the first one in the query. *)
Theorem validate_sql_names_first_listed (q : string) :
  (exists kw, kw ∈ BLOCKED_KEYWORDS /\ substring_of kw (Str.upper q)) ->
  exists earlier kw later,
    BLOCKED_KEYWORDS = earlier ++ kw :: later /\
    substring_of kw (Str.upper q) /\
    (forall k, k ∈ earlier -> ~ substring_of k (Str.upper q)) /\
    validate_sql q =
      {| safe := false; reason := Some ("Blocked keyword detected: " +:+ kw) |}.
Proof.
  intros (kw0 & Hin & Hsub).
  destruct (first_blocked BLOCKED_KEYWORDS (Str.upper q)) as [kw|] eqn:E.
  - destruct (first_blocked_some _ _ _ E) as (earlier & later & Hsplit & Hkw & Hnone).
    exists earlier, kw, later. repeat (split; [done |]).
    unfold validate_sql. by rewrite E.
  - exfalso. by apply (proj1 (first_blocked_none _ _) E kw0).
Qed.

(** A blocked keyword rejects the query in any letter case and at any
    place, inside an identifier or a literal as well. *)
Theorem validate_sql_rejects_any_case (q kw : string) :
  kw ∈ BLOCKED_KEYWORDS ->
  substring_nocase kw q ->
  safe (validate_sql q) = false.
Proof.
  intros Hin Hsub.
  assert (Hup : Str.upper kw = kw).
  { unfold BLOCKED_KEYWORDS in Hin.
    repeat (apply elem_of_cons in Hin as [-> | Hin]; [reflexivity |]).
    by apply not_elem_of_nil in Hin. }
  apply contains_upper_nocase in Hsub; [| done].
  apply contains_substring_of in Hsub.
  destruct (first_blocked BLOCKED_KEYWORDS (Str.upper q)) as [k|] eqn:E.
  - unfold validate_sql. by rewrite E.
  - exfalso. by apply (proj1 (first_blocked_none _ _) E kw).
Qed.

(** *** Padding *)

Lemma str_app_empty_l (s : string) : "" +:+ s = s.
Proof. reflexivity. Qed.

Lemma str_app_empty_r (s : string) : s +:+ "" = s.
Proof.
  induction s as [|c s IH]; [done |].
  by rewrite str_app_cons, IH.
Qed.

Lemma upper_char_space (c : ascii) : Str.is_space c = true -> Str.upper_char c = c.
Proof.
  unfold Str.is_space, Str.upper_char. intros H.
  destruct ((97 <=? Str.code c) && (Str.code c <=? 122))%nat eqn:E; [| done].
  exfalso.
  rewrite andb_true_iff, !Nat.leb_le in E.
  rewrite orb_true_iff, !andb_true_iff, !Nat.leb_le in H. lia.
Qed.

Lemma upper_all_space (ws : string) : all_space ws = true -> Str.upper ws = ws.
Proof.
  induction ws as [|c ws IH]; [done |].
  cbn [all_space Str.upper]. intros [Hc Hws]%andb_true_iff.
  by rewrite upper_char_space, IH.
Qed.

Lemma eqb_letter_space (a c : ascii) :
  Str.is_space a = false -> Str.is_space c = true -> Ascii.eqb a c = false.
Proof. intros Ha Hc. apply Ascii.eqb_neq. intros ->. congruence. Qed.

Lemma contains_empty (s : string) : Str.contains "" s = true.
Proof. by destruct s. Qed.

Lemma contains_leading_space (kw ws s : string) :
  no_space kw = true -> all_space ws = true ->
  Str.contains kw (ws +:+ s) = Str.contains kw s.
Proof.
  intros Hkw. induction ws as [|c ws IH]; [done |].
  cbn [all_space]. intros [Hc Hws]%andb_true_iff.
  rewrite str_app_cons. cbn [Str.contains]. rewrite (IH Hws).
  destruct kw as [|a kw]; [by rewrite contains_empty |].
  cbn [no_space] in Hkw. apply andb_true_iff in Hkw as [Ha _].
  apply negb_true_iff in Ha.
  cbn [Str.startswith]. by rewrite (eqb_letter_space a c).
Qed.

Lemma startswith_trailing_space (kw s ws : string) :
  no_space kw = true -> all_space ws = true ->
  Str.startswith kw (s +:+ ws) = Str.startswith kw s.
Proof.
  intros Hkw Hws. revert s; induction kw as [|a kw IH]; intros s; [done |].
  cbn [no_space] in Hkw. apply andb_true_iff in Hkw as [Ha Hkw].
  apply negb_true_iff in Ha.
  destruct s as [|b s].
  - rewrite str_app_empty_l. destruct ws as [|c ws]; [done |].
    cbn [all_space] in Hws. apply andb_true_iff in Hws as [Hc _].
    cbn [Str.startswith]. by rewrite (eqb_letter_space a c).
  - rewrite str_app_cons. cbn [Str.startswith].
    destruct (Ascii.eqb a b); [by apply IH | done].
Qed.

Lemma contains_trailing_space (kw s ws : string) :
  no_space kw = true -> all_space ws = true ->
  Str.contains kw (s +:+ ws) = Str.contains kw s.
Proof.
  intros Hkw Hws. induction s as [|b s IH].
  - rewrite str_app_empty_l.
    rewrite <- (str_app_empty_r ws) at 1. by apply contains_leading_space.
  - rewrite str_app_cons. cbn [Str.contains].
    rewrite IH.
    change (String b (s +:+ ws)) with (String b s +:+ ws).
    by rewrite startswith_trailing_space.
Qed.

Lemma lstrip_leading_space (ws s : string) :
  all_space ws = true -> Str.lstrip (ws +:+ s) = Str.lstrip s.
Proof.
  induction ws as [|c ws IH]; [done |].
  cbn [all_space]. intros [Hc Hws]%andb_true_iff.
  rewrite str_app_cons. cbn [Str.lstrip]. rewrite Hc. by apply IH.
Qed.

Lemma rstrip_all_space (ws : string) : all_space ws = true -> Str.rstrip ws = "".
Proof.
  induction ws as [|c ws IH]; [done |].
  cbn [all_space Str.rstrip]. intros [Hc Hws]%andb_true_iff.
  by rewrite (IH Hws), Hc.
Qed.

Lemma rstrip_trailing_space (s ws : string) :
  all_space ws = true -> Str.rstrip (s +:+ ws) = Str.rstrip s.
Proof.
  intros Hws. induction s as [|b s IH].
  - rewrite str_app_empty_l. by rewrite rstrip_all_space.
  - rewrite str_app_cons. cbn [Str.rstrip]. by rewrite IH.
Qed.

Lemma strip_padding (ws s ws' : string) :
  all_space ws = true -> all_space ws' = true ->
  Str.strip (ws +:+ s +:+ ws') = Str.strip s.
Proof.
  intros Hws Hws'. unfold Str.strip. rewrite lstrip_leading_space by done.
  induction s as [|b s IH].
  - rewrite str_app_empty_l.
    rewrite <- (str_app_empty_r ws'), lstrip_leading_space by done. done.
  - rewrite str_app_cons. cbn [Str.lstrip].
    destruct (Str.is_space b); [exact IH |].
    change (String b (s +:+ ws')) with (String b s +:+ ws').
    by apply rstrip_trailing_space.
Qed.

Lemma first_blocked_same (kws : list string) (u1 u2 : string) :
  (forall kw, kw ∈ kws -> Str.contains kw u1 = Str.contains kw u2) ->
  first_blocked kws u1 = first_blocked kws u2.
Proof.
  induction kws as [|k kws IH]; intros H; [done |].
  cbn [first_blocked]. rewrite (H k) by left.
  destruct (Str.contains k u2); [done |].
  apply IH. intros kw Hkw. apply H. by right.
Qed.

(** Whitespace before and after a query does not change the verdict:
    no blocked keyword has a whitespace in it, and the leading keyword
    is looked for in the trimmed text. *)
Theorem validate_sql_ignores_padding (ws q ws' : string) :
  all_space ws = true -> all_space ws' = true ->
  validate_sql (ws +:+ q +:+ ws') = validate_sql q.
Proof.
  intros Hws Hws'.
  assert (Hup : Str.upper (ws +:+ q +:+ ws') = ws +:+ Str.upper q +:+ ws').
  { by rewrite !upper_app, (upper_all_space ws), (upper_all_space ws'). }
  unfold validate_sql. rewrite Hup, strip_padding by done.
  rewrite (first_blocked_same BLOCKED_KEYWORDS _ (Str.upper q)); [done |].
  intros kw Hkw.
  assert (Hns : no_space kw = true).
  { unfold BLOCKED_KEYWORDS in Hkw.
    repeat (apply elem_of_cons in Hkw as [-> | Hkw]; [reflexivity |]).
    by apply not_elem_of_nil in Hkw. }
  by rewrite contains_leading_space, contains_trailing_space.
Qed.

End ValidatorMore.

(** ** More on the NL query pipeline *)

Lemma bind_raised {E A B} (m : M E A) (k : A -> M E B) (log log' : list E) (e : exn) :
  m log = (Raises e, log') -> bind m k log = (Raises e, log').
Proof. intros H. unfold bind. by rewrite H. Qed.

Section HandlerMore.
Import Handler.
Variable float_repr : pyfloat -> string.
Variable svc : Clients.

(** The poller looks at the log only to count the polls made so far. *)
Lemma poll_rounds_shift (query_id : string) (n : nat) (log1 log2 : list Call) :
  polls_in log1 = polls_in log2 ->
  fst (poll_rounds svc query_id n log1) = fst (poll_rounds svc query_id n log2) /\
  exists ext,
    snd (poll_rounds svc query_id n log1) = log1 ++ ext /\
    snd (poll_rounds svc query_id n log2) = log2 ++ ext.
Proof.
  revert log1 log2; induction n as [|n IH]; intros log1 log2 Hp.
  - split; [done |]. exists []. by rewrite !app_nil_r.
  - rewrite !poll_rounds_step, Hp.
    destruct (athena_get_query_execution svc query_id (polls_in log2)) as [e|err].
    + destruct (is_terminal (State e)).
      * split; [done |]. by exists [AthenaGetQueryExecution query_id].
      * destruct (IH ((log1 ++ [AthenaGetQueryExecution query_id]) ++ [TimeSleep 2])
                     ((log2 ++ [AthenaGetQueryExecution query_id]) ++ [TimeSleep 2]))
          as (Hfst & ext & H1 & H2).
        { by rewrite !polls_in_round, Hp. }
        split; [done |].
        exists ([AthenaGetQueryExecution query_id; TimeSleep 2] ++ ext).
        rewrite H1, H2. by rewrite <- !app_assoc.
    + split; [done |]. by exists [AthenaGetQueryExecution query_id].
Qed.

Lemma poll_query_from (query_id : string) (timeout_seconds : Z) (log : list Call) :
  polls_in log = 0%nat ->
  poll_query svc query_id timeout_seconds log =
    (result_of (poll_query svc query_id timeout_seconds),
     log ++ calls_of (poll_query svc query_id timeout_seconds)).
Proof.
  intros Hp. unfold result_of, calls_of, run, poll_query.
  destruct (poll_rounds_shift query_id (Z.to_nat (timeout_seconds / 2)) log [] Hp)
    as (Hfst & ext & H1 & H2).
  cbn [app] in H2. rewrite <- H2 in H1.
  rewrite <- Hfst, <- H1. by destruct (poll_rounds svc query_id _ log).
Qed.

Lemma fetch_results_from (query_id sql : string) (stats : Statistics) (log : list Call) :
  fetch_results svc query_id sql stats log =
    (result_of (fetch_results svc query_id sql stats),
     log ++ [AthenaGetQueryResults query_id 100]).
Proof.
  unfold result_of, run, fetch_results. unfold bind. rewrite !call_run.
  destruct (athena_get_query_results svc query_id 100) as [rows|e]; [| done].
  by destruct rows.
Qed.

(** The first two steps make the catalog call and the model call. *)
Lemma generation_run (question database : string) :
  exists ctx,
    generation_calls float_repr svc question database =
      [ GlueGetTables database;
        BedrockInvokeModel MODEL_ID (model_request float_repr (sql_prompt question database ctx)) ] /\
    get_catalog_schema svc database [] = (Returns ctx, [GlueGetTables database]) /\
    generate_sql float_repr svc question database ctx [GlueGetTables database] =
      (generated_query float_repr svc question database,
       generation_calls float_repr svc question database).
Proof.
  unfold generation_calls, generated_query, result_of, calls_of, run.
  destruct (get_catalog_schema_run svc database []) as (ctx & Hctx & _).
  exists ctx. rewrite !(bind_returns _ _ _ _ _ Hctx).
  pose proof (generate_sql_log float_repr svc question database ctx
                ([] ++ [GlueGetTables database])) as Hlog.
  cbn [app] in *. rewrite Hlog.
  split; [done |]. split; [done |].
  rewrite <- Hlog. by destruct (generate_sql _ _ _ _ _ _).
Qed.

(** The pipeline from the validated query on, in terms of the poller
    and the formatter run on their own. *)
Lemma execute_nl_query_submitted (question database q query_id : string) :
  generated_query float_repr svc question database = Returns q ->
  safe (validate_sql q) = true ->
  athena_start_query_execution svc q database ATHENA_OUTPUT "primary" = Returns query_id ->
  let base :=
    generation_calls float_repr svc question database
    ++ [AthenaStartQueryExecution q database ATHENA_OUTPUT "primary"]
    ++ calls_of (poll_query svc query_id 60) in
  run (execute_nl_query float_repr svc question database) =
    match result_of (poll_query svc query_id 60) with
    | Raises e => (Raises e, base)
    | Returns (state, stats) =>
        if String.eqb state "SUCCEEDED"
        then (match result_of (fetch_results svc query_id q stats) with
              | Returns p => Returns (Answer p)
              | Raises e => Raises e
              end,
              base ++ [AthenaGetQueryResults query_id 100])
        else (Returns (Failed {| error := "Athena query " +:+ state;
                                 sql := Some q; query_id := Some query_id |}),
              base)
    end.
Proof.
  intros Hgen Hsafe Hstart.
  destruct (generation_run question database) as (ctx & Hcalls & Hctx & Hg).
  rewrite Hgen in Hg. cbv zeta.
  unfold run at 1, execute_nl_query.
  rewrite (bind_returns _ _ _ _ _ Hctx), (bind_returns _ _ _ _ _ Hg).
  rewrite Hsafe. cbn [negb].
  unfold run_athena_query. unfold bind at 1. rewrite call_run, Hstart.
  unfold bind at 1. rewrite poll_query_from by (rewrite Hcalls; reflexivity).
  destruct (result_of (poll_query svc query_id 60)) as [[state stats]|e]; [| by rewrite <- !app_assoc].
  cbn [fst snd].
  destruct (state =? "SUCCEEDED")%string; cbn [negb].
  - unfold bind. rewrite fetch_results_from.
    destruct (result_of (fetch_results svc query_id q stats)); unfold ret;
      by rewrite <- !app_assoc.
  - unfold ret. by rewrite <- !app_assoc.
Qed.

Lemma waited_rounds_calls (query_id : string) (k : nat) (c : Call) :
  c ∈ waited_rounds query_id k ->
  c = AthenaGetQueryExecution query_id \/ c = TimeSleep 2.
Proof.
  induction k as [|k IH]; cbn [waited_rounds]; intros Hc.
  - by apply not_elem_of_nil in Hc.
  - apply elem_of_cons in Hc as [-> | Hc]; [by left |].
    apply elem_of_cons in Hc as [-> | Hc]; [by right | by apply IH].
Qed.

Lemma poll_query_calls (query_id : string) (timeout_seconds : Z) (c : Call) :
  c ∈ calls_of (poll_query svc query_id timeout_seconds) ->
  c = AthenaGetQueryExecution query_id \/ c = TimeSleep 2.
Proof.
  unfold calls_of, run, poll_query.
  destruct (poll_rounds_log svc query_id (Z.to_nat (timeout_seconds / 2)) [])
    as (k & [[H _] | [H _]]); rewrite H; cbn [app]; intros Hc.
  - by apply (waited_rounds_calls query_id k).
  - apply elem_of_app in Hc as [Hc | Hc]; [by apply (waited_rounds_calls query_id k) |].
    apply list_elem_of_singleton in Hc. by left.
Qed.

Lemma slept_seconds_app (l1 l2 : list Call) :
  slept_seconds (l1 ++ l2) = slept_seconds l1 + slept_seconds l2.
Proof.
  induction l1 as [|c l1 IH]; [done |].
  destruct c; cbn [app slept_seconds]; rewrite IH; lia.
Qed.

Lemma slept_seconds_waited (query_id : string) (k : nat) :
  slept_seconds (waited_rounds query_id k) = 2 * Z.of_nat k.
Proof.
  induction k as [|k IH]; [done |].
  cbn [waited_rounds slept_seconds]. rewrite IH. lia.
Qed.

(** *** The poller *)

(** The poller never sleeps longer than the timeout it was given, and
    when it gives up it has slept after its last poll as well: two
    seconds for each of its floor(timeout_seconds / 2) polls. *)
Theorem poll_query_sleep_budget (query_id : string) (timeout_seconds : Z) :
  0 <= slept_seconds (calls_of (poll_query svc query_id timeout_seconds))
    <= Z.max 0 timeout_seconds /\
  ((forall i, (i < Z.to_nat (timeout_seconds / 2))%nat -> still_running svc query_id i) ->
   slept_seconds (calls_of (poll_query svc query_id timeout_seconds))
     = 2 * Z.of_nat (Z.to_nat (timeout_seconds / 2))).
Proof.
  unfold calls_of, run, poll_query.
  set (n := Z.to_nat (timeout_seconds / 2)).
  assert (Hn : 2 * Z.of_nat n <= Z.max 0 timeout_seconds).
  { unfold n. destruct (Z_lt_le_dec timeout_seconds 0) as [Hneg | Hpos].
    - assert (timeout_seconds / 2 < 0) by (apply Z.div_lt_upper_bound; lia). lia.
    - assert (0 <= timeout_seconds / 2) by (apply Z.div_pos; lia).
      rewrite Z2Nat.id by done.
      pose proof (Z.mul_div_le timeout_seconds 2). lia. }
  split.
  - destruct (poll_rounds_log svc query_id n []) as (k & [[H Hk] | [H Hk]]);
      rewrite H; cbn [app]; rewrite ?slept_seconds_app, slept_seconds_waited;
      cbn [slept_seconds]; lia.
  - intros Hrun. rewrite (poll_rounds_timeout svc query_id n []) by done.
    cbn [snd app]. apply slept_seconds_waited.
Qed.

(** A timeout below two seconds, negative ones included, gives TIMEOUT
    at once: the status is never asked for. *)
Theorem poll_query_short_timeout (query_id : string) (timeout_seconds : Z) :
  timeout_seconds < 2 ->
  run (poll_query svc query_id timeout_seconds) = (Returns ("TIMEOUT", no_statistics), []).
Proof.
  intros Ht. unfold run, poll_query.
  assert (timeout_seconds / 2 <= 0) as Hq.
  { assert (timeout_seconds / 2 < 1) by (apply Z.div_lt_upper_bound; lia). lia. }
  replace (Z.to_nat (timeout_seconds / 2)) with 0%nat by lia. done.
Qed.

Lemma poll_rounds_raises (query_id : string) (n k : nat) (err : exn) (log : list Call) :
  (k < n)%nat ->
  (forall i, (i < k)%nat -> still_running svc query_id (polls_in log + i)) ->
  athena_get_query_execution svc query_id (polls_in log + k) = Raises err ->
  poll_rounds svc query_id n log =
    (Raises err, log ++ waited_rounds query_id k ++ [AthenaGetQueryExecution query_id]).
Proof.
  revert k log; induction n as [|n IH]; intros k log Hk Hrun He; [lia |].
  destruct k as [|k].
  - rewrite Nat.add_0_r in He. by rewrite poll_rounds_step, He.
  - destruct (still_running_not_terminal svc query_id (polls_in log + 0)) as (e0 & He0 & Ht0);
      [apply Hrun; lia |].
    rewrite Nat.add_0_r in He0.
    rewrite poll_rounds_step, He0, Ht0.
    rewrite (IH k).
    + by rewrite <- !app_assoc.
    + lia.
    + intros i Hi. rewrite polls_in_round.
      replace (S (polls_in log) + i)%nat with (polls_in log + S i)%nat by lia.
      apply Hrun. lia.
    + rewrite polls_in_round.
      by replace (S (polls_in log) + k)%nat with (polls_in log + S k)%nat by lia.
Qed.

(** An exception of a status poll is not turned into TIMEOUT: the
    poller raises it, having made no further poll and no sleep after it. *)
Theorem poll_query_raises (query_id : string) (timeout_seconds : Z) (k : nat) (err : exn) :
  (k < Z.to_nat (timeout_seconds / 2))%nat ->
  (forall i, (i < k)%nat -> still_running svc query_id i) ->
  athena_get_query_execution svc query_id k = Raises err ->
  run (poll_query svc query_id timeout_seconds) =
    (Raises err, waited_rounds query_id k ++ [AthenaGetQueryExecution query_id]).
Proof.
  intros Hk Hrun He. unfold run, poll_query.
  by rewrite (poll_rounds_raises query_id _ k err []).
Qed.

(** *** The formatter *)

(** The header takes one of the rows asked for: when the service
    keeps to [MaxResults], a payload has at most 99 data rows. *)
Theorem fetch_results_row_cap (query_id sql : string) (stats : Statistics)
    (retrieved : list Row) (p : Payload) :
  athena_get_query_results svc query_id 100 = Returns retrieved ->
  (length retrieved <= 100)%nat ->
  result_of (fetch_results svc query_id sql stats) = Returns p ->
  AthenaGetQueryResults query_id 100 ∈ calls_of (fetch_results svc query_id sql stats) /\
  0 <= row_count p <= 99.
Proof.
  intros Hrows Hlen.
  unfold result_of, calls_of, run, fetch_results.
  unfold bind. rewrite !call_run, Hrows.
  destruct retrieved as [|header data]; cbn [fst snd]; intros [= <-];
    (split; [by left |]); cbn [row_count].
  - lia.
  - rewrite length_map. cbn [length] in Hlen. lia.
Qed.

(** Rows are copied cell by cell: a row of the payload is as long as
    the retrieved row, so that the rows have the arity of the columns
    exactly when the service sent rows as long as the header. *)
Theorem fetch_results_arity (query_id sql : string) (stats : Statistics)
    (header : Row) (data : list Row) (p : Payload) :
  athena_get_query_results svc query_id 100 = Returns (header :: data) ->
  result_of (fetch_results svc query_id sql stats) = Returns p ->
  length (columns p) = length (Data header) /\
  map length (rows p) = map (fun row => length (Data row)) data /\
  (Forall (fun row => length (Data row) = length (Data header)) data <->
   Forall (fun r => length r = length (columns p)) (rows p)).
Proof.
  intros Hrows.
  unfold result_of, run, fetch_results.
  unfold bind. rewrite !call_run, Hrows. cbn [fst]. intros [= <-].
  cbn [columns rows]. rewrite length_map.
  split; [done |].
  assert (Hlens : map length (map (fun row => map cell_text (Data row)) data)
                  = map (fun row => length (Data row)) data).
  { rewrite map_map. apply map_ext. intros row. by rewrite length_map. }
  split; [exact Hlens |].
  rewrite !Forall_forall. split.
  - intros H r Hr. apply list_elem_of_fmap in Hr as (row & -> & Hrow).
    rewrite length_map. by apply H.
  - intros H row Hrow.
    specialize (H (map cell_text (Data row))).
    rewrite length_map in H. apply H.
    apply list_elem_of_fmap. by exists row.
Qed.

(** *** The pipeline *)

Lemma execute_nl_query_stops (question database : string) :
  let base := generation_calls float_repr svc question database in
  match generated_query float_repr svc question database with
  | Raises e => run (execute_nl_query float_repr svc question database) = (Raises e, base)
  | Returns q =>
      if safe (validate_sql q)
      then
        forall e,
          athena_start_query_execution svc q database ATHENA_OUTPUT "primary" = Raises e ->
          run (execute_nl_query float_repr svc question database) =
            (Raises e, base ++ [AthenaStartQueryExecution q database ATHENA_OUTPUT "primary"])
      else calls_of (execute_nl_query float_repr svc question database) = base
  end.
Proof.
  destruct (generation_run question database) as (ctx & Hcalls & Hctx & Hg).
  cbv zeta. unfold calls_of at 1, run, execute_nl_query.
  rewrite !(bind_returns _ _ _ _ _ Hctx).
  destruct (generated_query float_repr svc question database) as [q|e].
  - rewrite !(bind_returns _ _ _ _ _ Hg).
    destruct (safe (validate_sql q)) eqn:Hsafe; cbn [negb].
    + intros e Hstart. unfold run_athena_query. unfold bind at 1.
      by rewrite call_run, Hstart.
    + destruct (rejection_reason q Hsafe) as (r & Hr).
      unfold bind, lift, ret. by rewrite Hr.
  - by rewrite (bind_raised _ _ _ _ _ Hg).
Qed.

Lemma generation_calls_kind (question database : string) (c : Call) :
  c ∈ generation_calls float_repr svc question database -> is_athena_call c = false.
Proof.
  destruct (generation_run question database) as (ctx & -> & _).
  intros Hc. repeat (apply elem_of_cons in Hc as [-> | Hc]; [done |]).
  by apply not_elem_of_nil in Hc.
Qed.

Lemma filter_none {A} (f : A -> bool) (l : list A) :
  (forall x, x ∈ l -> f x = false) -> filter f l = [].
Proof.
  induction l as [|x l IH]; intros H; [done |].
  rewrite filter_cons. rewrite (H x) by left. cbn.
  apply IH. intros y Hy. apply H. by right.
Qed.

(** When generation fails, by an exception of the model call or by a
    response without [content[0].text], the pipeline raises the same
    exception and the execution service is never called. *)
Theorem execute_nl_query_generation_failure (question database : string) (e : exn) :
  generated_query float_repr svc question database = Raises e ->
  result_of (execute_nl_query float_repr svc question database) = Raises e /\
  forall c, c ∈ calls_of (execute_nl_query float_repr svc question database) ->
            is_athena_call c = false.
Proof.
  intros Hgen.
  pose proof (execute_nl_query_stops question database) as Hrun.
  cbv zeta in Hrun. rewrite Hgen in Hrun.
  unfold result_of, calls_of. rewrite Hrun. split; [done |].
  intros c Hc. by apply (generation_calls_kind question database).
Qed.

(** An exception of [start_query_execution] is not caught either: the
    pipeline raises it and neither polls nor fetches. *)
Theorem execute_nl_query_submission_failure (question database q : string) (e : exn) :
  generated_query float_repr svc question database = Returns q ->
  safe (validate_sql q) = true ->
  athena_start_query_execution svc q database ATHENA_OUTPUT "primary" = Raises e ->
  result_of (execute_nl_query float_repr svc question database) = Raises e /\
  forall c, c ∈ calls_of (execute_nl_query float_repr svc question database) ->
            is_poll c = false /\ is_results_fetch c = false.
Proof.
  intros Hgen Hsafe Hstart.
  pose proof (execute_nl_query_stops question database) as Hrun.
  cbv zeta in Hrun. rewrite Hgen, Hsafe in Hrun.
  unfold result_of, calls_of. rewrite (Hrun e Hstart). split; [done |].
  cbn [snd]. intros c Hc. apply elem_of_app in Hc as [Hc | Hc].
  - apply generation_calls_kind in Hc. by destruct c.
  - apply list_elem_of_singleton in Hc. by subst c.
Qed.

(** Every query handed to [start_query_execution] is the generated
    query and has passed the validator; it goes to the fixed output
    location and work group, and there is at most one submission. *)
Theorem execute_nl_query_submits_validated (question database : string) (c : Call) :
  c ∈ calls_of (execute_nl_query float_repr svc question database) ->
  is_submission c = true ->
  exists q,
    c = AthenaStartQueryExecution q database "s3://my-athena-results/agent-queries/" "primary" /\
    generated_query float_repr svc question database = Returns q /\
    safe (validate_sql q) = true /\
    length (filter is_submission
              (calls_of (execute_nl_query float_repr svc question database))) = 1%nat.
Proof.
  intros Hc Hsub.
  pose proof (execute_nl_query_stops question database) as Hstop.
  cbv zeta in Hstop.
  assert (Hgcalls : forall c', c' ∈ generation_calls float_repr svc question database ->
                               is_submission c' = false).
  { intros c' Hc'. apply generation_calls_kind in Hc'. by destruct c'. }
  destruct (generated_query float_repr svc question database) as [q|e] eqn:Hgen.
  - destruct (safe (validate_sql q)) eqn:Hsafe.
    + exists q.
      assert (Hcalls : exists ext,
                calls_of (execute_nl_query float_repr svc question database) =
                  generation_calls float_repr svc question database
                  ++ [AthenaStartQueryExecution q database ATHENA_OUTPUT "primary"] ++ ext /\
                forall c', c' ∈ ext -> is_submission c' = false).
      { destruct (athena_start_query_execution svc q database ATHENA_OUTPUT "primary")
          as [query_id|e] eqn:Hstart.
        - pose proof (execute_nl_query_submitted question database q query_id Hgen Hsafe Hstart)
            as Hrun. cbv zeta in Hrun.
          assert (Hpoll : forall c', c' ∈ calls_of (poll_query svc query_id 60) ->
                                     is_submission c' = false).
          { intros c' Hc'. by destruct (poll_query_calls query_id 60 c' Hc') as [-> | ->]. }
          unfold calls_of at 1. rewrite Hrun.
          destruct (result_of (poll_query svc query_id 60)) as [[state stats]|e].
          + destruct (state =? "SUCCEEDED")%string; cbn [snd].
            * exists (calls_of (poll_query svc query_id 60) ++ [AthenaGetQueryResults query_id 100]).
              split; [by rewrite <- !app_assoc |].
              intros c' Hc'. apply elem_of_app in Hc' as [Hc' | Hc']; [by apply Hpoll |].
              apply list_elem_of_singleton in Hc'. by subst c'.
            * by exists (calls_of (poll_query svc query_id 60)).
          + by exists (calls_of (poll_query svc query_id 60)).
        - exists []. unfold calls_of at 1. rewrite (Hstop e eq_refl).
          split; [done |]. intros c' Hc'. by apply not_elem_of_nil in Hc'. }
      destruct Hcalls as (ext & Hcalls & Hext).
      rewrite Hcalls in Hc |- *.
      split; [| split; [done | split; [done |]]].
      * apply elem_of_app in Hc as [Hc | Hc]; [apply Hgcalls in Hc; congruence |].
        apply elem_of_cons in Hc as [-> | Hc]; [done |].
        apply Hext in Hc. congruence.
      * rewrite !filter_app, (filter_none is_submission _ Hgcalls),
          (filter_none is_submission _ Hext). done.
    + unfold calls_of in Hc, Hstop. rewrite Hstop in Hc.
      apply Hgcalls in Hc. congruence.
  - unfold calls_of in Hc. rewrite Hstop in Hc. cbn [snd] in Hc.
    apply Hgcalls in Hc. congruence.
Qed.

(** A poll result other than SUCCEEDED, TIMEOUT included, gives the
    error dictionary with the state, the query and the execution id,
    and the results are never fetched. *)
Theorem execute_nl_query_not_succeeded (question database q query_id state : string)
    (stats : Statistics) :
  generated_query float_repr svc question database = Returns q ->
  safe (validate_sql q) = true ->
  athena_start_query_execution svc q database ATHENA_OUTPUT "primary" = Returns query_id ->
  result_of (poll_query svc query_id 60) = Returns (state, stats) ->
  state <> "SUCCEEDED" ->
  result_of (execute_nl_query float_repr svc question database) =
    Returns (Failed {| error := "Athena query " +:+ state;
                       sql := Some q; query_id := Some query_id |}) /\
  forall c, c ∈ calls_of (execute_nl_query float_repr svc question database) ->
            is_results_fetch c = false.
Proof.
  intros Hgen Hsafe Hstart Hpoll Hne.
  pose proof (execute_nl_query_submitted question database q query_id Hgen Hsafe Hstart) as Hrun.
  cbv zeta in Hrun. rewrite Hpoll in Hrun.
  apply String.eqb_neq in Hne. rewrite Hne in Hrun.
  unfold result_of at 1, calls_of at 1. rewrite Hrun. split; [done |].
  cbn [snd]. intros c Hc.
  apply elem_of_app in Hc as [Hc | Hc]; [apply generation_calls_kind in Hc; by destruct c |].
  apply elem_of_cons in Hc as [-> | Hc]; [done |].
  by destruct (poll_query_calls query_id 60 c Hc) as [-> | ->].
Qed.

(** When the poller reports SUCCEEDED, the pipeline answers with the
    formatter's payload for the generated query and the statistics of
    that poll; an exception of the results fetch is raised as it is. *)
Theorem execute_nl_query_succeeded (question database q query_id : string)
    (stats : Statistics) :
  generated_query float_repr svc question database = Returns q ->
  safe (validate_sql q) = true ->
  athena_start_query_execution svc q database ATHENA_OUTPUT "primary" = Returns query_id ->
  result_of (poll_query svc query_id 60) = Returns ("SUCCEEDED", stats) ->
  (forall p,
     result_of (fetch_results svc query_id q stats) = Returns p ->
     result_of (execute_nl_query float_repr svc question database) = Returns (Answer p) /\
     sql_generated p = q) /\
  (forall e,
     result_of (fetch_results svc query_id q stats) = Raises e ->
     result_of (execute_nl_query float_repr svc question database) = Raises e).
Proof.
  intros Hgen Hsafe Hstart Hpoll.
  pose proof (execute_nl_query_submitted question database q query_id Hgen Hsafe Hstart) as Hrun.
  cbv zeta in Hrun. rewrite Hpoll in Hrun.
  change ("SUCCEEDED" =? "SUCCEEDED")%string with true in Hrun.
  unfold result_of at 2 4. rewrite Hrun. cbn [fst].
  split.
  - intros p Hp. rewrite Hp. split; [done |].
    revert Hp. unfold result_of, run, fetch_results, bind. rewrite !call_run.
    destruct (athena_get_query_results svc query_id 100) as [rows|e]; [| discriminate].
    by destruct rows; intros [= <-].
  - intros e He. by rewrite He.
Qed.

(** *** The catalog context *)

Lemma column_texts_text_type (cols : list Column) (c : Column) (s : string) :
  c ∈ cols -> col_Type c = TypeText s -> exists e, column_texts cols = Raises e.
Proof.
  induction cols as [|c' cols IH]; intros Hin Hty; [by apply not_elem_of_nil in Hin |].
  cbn [column_texts].
  apply elem_of_cons in Hin as [<- | Hin].
  - rewrite Hty. by eexists.
  - destruct (type_name (col_Type c')); [| by eexists].
    destruct (IH Hin Hty) as [e ->]. by eexists.
Qed.

Lemma schema_lines_text_type (tables : list Table) (t : Table) (c : Column) (s : string) :
  t ∈ tables -> c ∈ table_columns t -> col_Type c = TypeText s ->
  exists e, schema_lines tables = Raises e.
Proof.
  induction tables as [|t' tables IH]; intros Ht Hc Hty; [by apply not_elem_of_nil in Ht |].
  cbn [schema_lines].
  apply elem_of_cons in Ht as [<- | Ht].
  - destruct (column_texts_text_type _ c s Hc Hty) as [e ->]. by eexists.
  - destruct (column_texts (table_columns t')); [| by eexists].
    destruct (IH Ht Hc Hty) as [e ->]. by eexists.
Qed.

(** A column whose ['Type'] is a text, which is what Glue sends, makes
    the subscript [c['Type']['Name']] fail; the failure is caught with
    the others, so one such column among the first ten tables turns the
    whole context into the schema-unavailable sentinel.  A table after
    the tenth is never looked at. *)
Theorem get_catalog_schema_text_type (database : string) (tables : list Table)
    (t : Table) (c : Column) (s : string) :
  glue_get_tables svc database = Returns tables ->
  t ∈ take 10 tables ->
  c ∈ table_columns t ->
  col_Type c = TypeText s ->
  result_of (get_catalog_schema svc database) =
    Returns "Schema unavailable — generate best-effort SQL".
Proof.
  intros Htables Ht Hc Hty.
  unfold result_of, run, get_catalog_schema, try_except, bind, call, lift, ret.
  rewrite Htables.
  by destruct (schema_lines_text_type _ t c s Ht Hc Hty) as [e ->].
Qed.

(** *** The entry point *)

Lemma params_of_snoc (ps : list Param) (p : Param) :
  params_of (ps ++ [p]) = <[p_name p := p_value p]> (params_of ps).
Proof. unfold params_of. by rewrite foldl_app. Qed.

Lemma params_of_none (ps : list Param) (k : string) :
  (forall p, p ∈ ps -> p_name p <> k) -> params_of ps !! k = None.
Proof.
  induction ps as [|p ps IH] using rev_ind; intros H; [done |].
  rewrite params_of_snoc, lookup_insert_ne.
  - apply IH. intros p' Hp'. apply H. apply elem_of_app. by left.
  - apply H. apply elem_of_app. right. by left.
Qed.

Lemma params_of_last (pre post : list Param) (p : Param) (k : string) :
  p_name p = k ->
  (forall p', p' ∈ post -> p_name p' <> k) ->
  params_of (pre ++ p :: post) !! k = Some (p_value p).
Proof.
  intros Hk. induction post as [|p' post IH] using rev_ind; intros H.
  - rewrite params_of_snoc, Hk. apply lookup_insert_eq.
  - rewrite app_comm_cons, app_assoc, params_of_snoc, lookup_insert_ne.
    + apply IH. intros p'' Hp''. apply H. apply elem_of_app. by left.
    + apply H. apply elem_of_app. right. by left.
Qed.

(** A call of [execute_nl_query] without a [question] parameter raises
    [KeyError] before any service is called; no envelope is returned. *)
Theorem lambda_handler_missing_question (event : Event) :
  function event = "execute_nl_query" ->
  (forall p, p ∈ default [] (parameters event) -> p_name p <> "question") ->
  run (lambda_handler float_repr svc event) = (Raises (KeyError "question"), []).
Proof.
  intros Hfn Hnone.
  unfold run, lambda_handler. rewrite Hfn.
  change ("execute_nl_query" =? "execute_nl_query")%string with true. cbv iota.
  rewrite (params_of_none _ "question" Hnone).
  reflexivity.
Qed.

(** The parameters are read as a dictionary: of several [question]
    parameters the last one is asked, and without a [database]
    parameter the default database is queried.  The pipeline's result
    is wrapped in the envelope; an exception of the pipeline is raised
    as it is. *)
Theorem lambda_handler_routes (event : Event) (pre post : list Param) (p : Param) :
  function event = "execute_nl_query" ->
  default [] (parameters event) = pre ++ p :: post ->
  p_name p = "question" ->
  (forall p', p' ∈ post -> p_name p' <> "question") ->
  (forall p', p' ∈ pre ++ p :: post -> p_name p' <> "database") ->
  run (lambda_handler float_repr svc event) =
    match run (execute_nl_query float_repr svc (p_value p) "data_warehouse") with
    | (Returns r, log) =>
        (Returns (envelope (actionGroup event) "execute_nl_query"
                    (Json.dumps float_repr None (json_of_result r))),
         log)
    | (Raises e, log) => (Raises e, log)
    end.
Proof.
  intros Hfn Hps Hq Hlast Hdb.
  unfold run, lambda_handler. rewrite Hfn, Hps.
  change ("execute_nl_query" =? "execute_nl_query")%string with true. cbv iota.
  rewrite (params_of_last pre post p "question" Hq Hlast).
  rewrite (params_of_none _ "database" Hdb).
  unfold bind, lift, ret. cbn [from_option default].
  change DEFAULT_DATABASE with "data_warehouse".
  by destruct (execute_nl_query float_repr svc (p_value p) "data_warehouse" [])
    as [[r|e] log].
Qed.

End HandlerMore.

(** ** More on the self-healing pipeline *)

Section TriageMore.
Import SelfHealing.
Variable float_repr : pyfloat -> string.
Variable svc : Clients.

Lemma str_app_assoc (a b c : string) : (a +:+ b) +:+ c = a +:+ (b +:+ c).
Proof.
  induction a as [|x a IH]; [done |].
  by rewrite !str_app_cons, IH.
Qed.

(** The loop of [invoke_agent] from any accumulated text and traces. *)
Lemma consume_items (completion : list StreamItem) (text : string) (traces : list json) :
  foldl consume_item (text, traces) completion =
    (text +:+ chunk_texts completion, traces ++ omap orchestration_step completion).
Proof.
  revert text traces; induction completion as [|item rest IH]; intros text traces.
  - cbn. by rewrite str_app_empty_r, app_nil_r.
  - cbn [foldl chunk_texts omap list_omap].
    destruct (consume_item (text, traces) item) as [text' traces'] eqn:E.
    rewrite IH. revert E. unfold consume_item, orchestration_step.
    destruct (chunk item) as [t|].
    + intros [= <- <-]. by rewrite str_app_assoc.
    + destruct (trace item) as [[[[[step|]]|]]|]; intros [= <- <-]; [| done | done | done].
      by rewrite <- app_assoc.
Qed.

(** The narrative is the text chunks of the stream in their order and
    the traces are the orchestration traces of the items that carry no
    text chunk, in their order; an item with both keys counts as text
    only, and other traces are dropped. *)
Theorem invoke_agent_accumulates (prompt session_id : string)
    (completion : list StreamItem) :
  bedrock_invoke_agent svc AGENT_ID AGENT_ALIAS_ID session_id prompt true = Returns completion ->
  result_of (invoke_agent svc prompt session_id) =
    Returns (chunk_texts completion, omap orchestration_step completion) /\
  (length (omap orchestration_step completion) <= length completion)%nat.
Proof.
  intros Hc. split.
  - unfold result_of, run, invoke_agent, bind, call, ret. rewrite Hc. cbn [fst].
    by rewrite consume_items.
  - clear Hc. induction completion as [|item rest IH]; [done |].
    cbn [omap list_omap length].
    destruct (orchestration_step item); cbn [length]; lia.
Qed.

(** The handler from the evidence fetches to the summary, with the
    calls it makes spelled out. *)
Lemma lambda_handler_run (event : Event) :
  exists text runs,
    let prompt :=
      build_prompt float_repr (event_job event) (event_run event) (event_error event) text runs in
    let log0 :=
      [ LogsFilterLogEvents "/aws-glue/jobs/error" (event_run event) 20;
        GlueGetJobRuns (event_job event) 3;
        BedrockInvokeAgent AGENT_ID AGENT_ALIAS_ID ("heal-" +:+ event_run event) prompt true ] in
    result_of (get_cloudwatch_logs svc (event_job event) (event_run event)) = Returns text /\
    result_of (get_recent_run_history svc (event_job event)) = Returns runs /\
    triage_decision float_repr svc event =
      result_of (invoke_agent svc prompt ("heal-" +:+ event_run event)) /\
    run (lambda_handler float_repr svc event) =
      match triage_decision float_repr svc event with
      | Raises e => (Raises e, log0)
      | Returns (narrative, traces) =>
          let metric_call :=
            CloudwatchPutMetricData "AgenticDE/SelfHealing"
              (metric_data (event_job event) traces) in
          let publish_call :=
            SnsPublish ESCALATION_TOPIC_ARN (escalation_subject (event_job event))
              (escalation_message float_repr (event_job event) (event_run event)
                 (event_error event) narrative) in
          match metrics_answer svc event traces with
          | Raises e => (Raises e, log0 ++ [metric_call])
          | Returns _ =>
              if Str.contains "ESCALATE" (Str.upper narrative)
                 || Str.contains "HUMAN" (Str.upper narrative)
              then
                match publish_answer float_repr svc event narrative with
                | Raises e => (Raises e, log0 ++ [metric_call; publish_call])
                | Returns _ =>
                    (Returns (summary_of event narrative traces),
                     log0 ++ [metric_call; publish_call])
                end
              else (Returns (summary_of event narrative traces), log0 ++ [metric_call])
          end
      end.
Proof.
  destruct (get_cloudwatch_logs_run svc (event_job event) (event_run event) [])
    as (text & Hlogs & _).
  destruct (get_recent_run_history_run svc (event_job event)
              ([] ++ [LogsFilterLogEvents "/aws-glue/jobs/error" (event_run event) 20]))
    as (runs & Hruns & _).
  destruct (get_recent_run_history_run svc (event_job event) []) as (runs' & Hruns' & _).
  assert (runs' = runs) as ->.
  { revert Hruns Hruns'. unfold get_recent_run_history, try_except, bind, call, ret.
    destruct (glue_get_job_runs svc (event_job event) 3); congruence. }
  exists text, runs. cbv zeta.
  set (prompt := build_prompt float_repr (event_job event) (event_run event)
                   (event_error event) text runs).
  set (session := "heal-" +:+ event_run event).
  split; [unfold result_of, run; by rewrite Hlogs |].
  split; [unfold result_of, run; by rewrite Hruns' |].
  assert (Hdec : triage_decision float_repr svc event = result_of (invoke_agent svc prompt session)).
  { unfold triage_decision, result_of, run.
    rewrite (bind_returns _ _ _ _ _ Hlogs), (bind_returns _ _ _ _ _ Hruns).
    unfold invoke_agent, bind, call, ret.
    by destruct (bedrock_invoke_agent svc _ _ _ _ _). }
  split; [exact Hdec |].
  assert (Hinv : invoke_agent svc prompt session
                   (([] ++ [LogsFilterLogEvents "/aws-glue/jobs/error" (event_run event) 20])
                    ++ [GlueGetJobRuns (event_job event) 3]) =
                 (triage_decision float_repr svc event,
                  [ LogsFilterLogEvents "/aws-glue/jobs/error" (event_run event) 20;
                    GlueGetJobRuns (event_job event) 3;
                    BedrockInvokeAgent AGENT_ID AGENT_ALIAS_ID session prompt true ])).
  { rewrite Hdec. unfold result_of, run, invoke_agent, bind, call, ret.
    by destruct (bedrock_invoke_agent svc _ _ _ _ _). }
  unfold run, lambda_handler.
  fold (event_job event) (event_run event) (event_error event).
  rewrite (bind_returns _ _ _ _ _ Hlogs), (bind_returns _ _ _ _ _ Hruns).
  fold prompt session.
  destruct (triage_decision float_repr svc event) as [[narrative traces]|e].
  - rewrite (bind_returns _ _ _ _ _ Hinv). cbn [fst snd].
    unfold emit_metrics, metrics_answer. unfold bind at 1. rewrite call_run.
    destruct (cloudwatch_put_metric_data svc _ _) as [[]|e]; [| reflexivity].
    unfold escalate_to_human, publish_answer.
    destruct (Str.contains "ESCALATE" (Str.upper narrative)
              || Str.contains "HUMAN" (Str.upper narrative)).
    + unfold bind at 1. rewrite call_run.
      destruct (sns_publish svc _ _ _) as [[]|e]; unfold ret, summary_of; reflexivity.
    + unfold bind, ret, summary_of. reflexivity.
  - by rewrite (bind_raised _ _ _ _ _ Hinv).
Qed.

(** What the handler returns is the summary of the decision. *)
Lemma lambda_handler_returns (event : Event) (narrative : string) (traces : list json)
    (s : Summary) :
  triage_decision float_repr svc event = Returns (narrative, traces) ->
  result_of (lambda_handler float_repr svc event) = Returns s ->
  s = summary_of event narrative traces /\
  metrics_answer svc event traces = Returns tt /\
  (Str.contains "ESCALATE" (Str.upper narrative) || Str.contains "HUMAN" (Str.upper narrative) = true ->
   publish_answer float_repr svc event narrative = Returns tt /\
   notifications (calls_of (lambda_handler float_repr svc event)) = 1%nat).
Proof.
  intros Hdec.
  destruct (lambda_handler_run event) as (text & runs & _ & _ & _ & Hrun).
  cbv zeta in Hrun. rewrite Hdec in Hrun.
  unfold result_of, calls_of. rewrite Hrun.
  destruct (metrics_answer svc event traces) as [[]|e]; [| discriminate].
  destruct (Str.contains "ESCALATE" (Str.upper narrative)
            || Str.contains "HUMAN" (Str.upper narrative)).
  - destruct (publish_answer float_repr svc event narrative) as [[]|e]; [| discriminate].
    cbn [fst snd]. intros [= <-]. done.
  - cbn [fst]. intros [= <-]. done.
Qed.

(** An exception of the agent invocation is not caught: the handler
    raises it after the two evidence fetches, and neither emits
    metrics nor publishes an alert. *)
Theorem lambda_handler_agent_failure (event : Event) (e : exn) :
  triage_decision float_repr svc event = Raises e ->
  result_of (lambda_handler float_repr svc event) = Raises e /\
  forall c, c ∈ calls_of (lambda_handler float_repr svc event) ->
            is_metric_call c = false /\ is_publish c = false.
Proof.
  intros Hdec.
  destruct (lambda_handler_run event) as (text & runs & _ & _ & _ & Hrun).
  cbv zeta in Hrun. rewrite Hdec in Hrun.
  unfold result_of, calls_of. rewrite Hrun. split; [done |].
  cbn [snd]. intros c Hc.
  repeat (apply elem_of_cons in Hc as [-> | Hc]; [done |]).
  by apply not_elem_of_nil in Hc.
Qed.

(** The agent is invoked once, after the log fetch and the run-history
    fetch in this order, in the session [heal-] followed by the run id
    and with the prompt built from what the two fetches returned; every
    later call is the metrics call or the alert. *)
Theorem lambda_handler_call_order (event : Event) :
  exists text runs rest,
    result_of (get_cloudwatch_logs svc (event_job event) (event_run event)) = Returns text /\
    result_of (get_recent_run_history svc (event_job event)) = Returns runs /\
    calls_of (lambda_handler float_repr svc event) =
      [ LogsFilterLogEvents "/aws-glue/jobs/error" (event_run event) 20;
        GlueGetJobRuns (event_job event) 3;
        BedrockInvokeAgent AGENT_ID AGENT_ALIAS_ID ("heal-" +:+ event_run event)
          (build_prompt float_repr (event_job event) (event_run event) (event_error event)
             text runs)
          true ] ++ rest /\
    forall c, c ∈ rest -> is_metric_call c = true \/ is_publish c = true.
Proof.
  destruct (lambda_handler_run event) as (text & runs & Hlogs & Hruns & _ & Hrun).
  cbv zeta in Hrun. exists text, runs.
  unfold calls_of at 1. rewrite Hrun.
  destruct (triage_decision float_repr svc event) as [[narrative traces]|e].
  - destruct (metrics_answer svc event traces) as [[]|e];
      [destruct (Str.contains "ESCALATE" (Str.upper narrative)
                 || Str.contains "HUMAN" (Str.upper narrative));
         [destruct (publish_answer float_repr svc event narrative) as [[]|e] |] |];
      eexists; (split; [done |]); (split; [done |]); (split; [reflexivity |]);
      intros c Hc;
      repeat (apply elem_of_cons in Hc as [-> | Hc]; [by (left + right) |]);
      by apply not_elem_of_nil in Hc.
  - exists []. split; [done |]. split; [done |]. split; [by rewrite app_nil_r |].
    intros c Hc. by apply not_elem_of_nil in Hc.
Qed.

(** Once the agent has answered, the handler makes exactly one metrics
    call, whether or not it escalates and whatever the sinks answer:
    two data points tagged with the job name, the attempt count 1 and
    the number of orchestration traces. *)
Theorem lambda_handler_metrics_once (event : Event) (narrative : string)
    (traces : list json) :
  triage_decision float_repr svc event = Returns (narrative, traces) ->
  filter is_metric_call (calls_of (lambda_handler float_repr svc event)) =
    [ CloudwatchPutMetricData "AgenticDE/SelfHealing"
        [ {| MetricName := "AutoRemediationAttempt";
             Dimensions := [ {| dim_Name := "JobName"; dim_Value := event_job event |} ];
             Value := 1;
             Unit := "Count" |};
          {| MetricName := "AgentTraceSteps";
             Dimensions := [ {| dim_Name := "JobName"; dim_Value := event_job event |} ];
             Value := Z.of_nat (length traces);
             Unit := "Count" |} ] ].
Proof.
  intros Hdec.
  destruct (lambda_handler_run event) as (text & runs & _ & _ & _ & Hrun).
  cbv zeta in Hrun. rewrite Hdec in Hrun.
  unfold calls_of. rewrite Hrun.
  destruct (metrics_answer svc event traces) as [[]|e];
    [destruct (Str.contains "ESCALATE" (Str.upper narrative)
               || Str.contains "HUMAN" (Str.upper narrative));
       [destruct (publish_answer float_repr svc event narrative) as [[]|e] |] |];
    reflexivity.
Qed.

Lemma take_length (n : nat) (s : string) : (String.length (Str.take n s) <= n)%nat.
Proof.
  revert s; induction n as [|n IH]; intros s; [done |].
  destruct s as [|c s]; cbn [Str.take String.length]; [lia |].
  specialize (IH s). lia.
Qed.

Lemma take_prefix (n : nat) (s : string) : prefix_of (Str.take n s) s.
Proof.
  revert s; induction n as [|n IH]; intros s; [by exists s |].
  destruct s as [|c s]; [by exists "" |].
  destruct (IH s) as [rest Hrest]. exists rest.
  cbn [Str.take]. rewrite str_app_cons. by rewrite <- Hrest.
Qed.

Lemma take_all (n : nat) (s : string) : (String.length s <= n)%nat -> Str.take n s = s.
Proof.
  revert s; induction n as [|n IH]; intros s Hlen.
  - destruct s; [done | cbn in Hlen; lia].
  - destruct s as [|c s]; [done |].
    cbn [Str.take]. rewrite IH; [done | cbn in Hlen; lia].
Qed.

(** The summary text is the first 500 characters of the narrative: a
    prefix of it, never longer than 500, and the whole narrative when
    that is short enough.  The step count is the number of traces. *)
Theorem lambda_handler_summary_excerpt (event : Event) (narrative : string)
    (traces : list json) (s : Summary) :
  triage_decision float_repr svc event = Returns (narrative, traces) ->
  result_of (lambda_handler float_repr svc event) = Returns s ->
  (String.length (summary s) <= 500)%nat /\
  prefix_of (summary s) narrative /\
  ((String.length narrative <= 500)%nat -> summary s = narrative) /\
  agent_steps s = Z.of_nat (length traces).
Proof.
  intros Hdec Hres.
  destruct (lambda_handler_returns event narrative traces s Hdec Hres) as (-> & _).
  cbn [summary agent_steps summary_of].
  split; [apply take_length |]. split; [apply take_prefix |].
  split; [apply take_all | done].
Qed.

(** The summary says [resolved] exactly when the narrative has no
    ESCALATE in it, letter case ignored; the HUMAN marker is not looked
    at here.  A summary that says unresolved always comes with one
    published alert. *)
Theorem lambda_handler_resolved_flag (event : Event) (narrative : string)
    (traces : list json) (s : Summary) :
  triage_decision float_repr svc event = Returns (narrative, traces) ->
  result_of (lambda_handler float_repr svc event) = Returns s ->
  (resolved s = true <-> ~ substring_nocase "ESCALATE" narrative) /\
  (resolved s = false ->
   notifications (calls_of (lambda_handler float_repr svc event)) = 1%nat).
Proof.
  intros Hdec Hres.
  destruct (lambda_handler_returns event narrative traces s Hdec Hres) as (-> & _ & Hpub).
  cbn [resolved summary_of].
  pose proof (contains_upper_nocase "ESCALATE" narrative eq_refl) as Hspec.
  destruct (Str.contains "ESCALATE" (Str.upper narrative)) eqn:E; cbn [negb].
  - split; [| intros _; by apply Hpub].
    split; [discriminate | intros Hn; destruct Hn; by apply Hspec].
  - split; [| discriminate].
    split; [intros _ Hc; apply Hspec in Hc; discriminate Hc | done].
Qed.

End TriageMore.

(** ** The schema mapping argument *)

Section MappingFacts.
Import SalesTransform.

Lemma contains_char (c : ascii) (s : string) :
  Str.contains (String c EmptyString) s = has_char c s.
Proof.
  induction s as [|x s IH]; [done |].
  cbn [Str.contains Str.startswith has_char]. rewrite IH, (Ascii.eqb_sym c x).
  by destruct (Ascii.eqb x c), s.
Qed.

Lemma has_char_app (c : ascii) (a b : string) :
  has_char c (a +:+ b) = has_char c a || has_char c b.
Proof.
  induction a as [|x a IH]; [done |].
  rewrite str_app_cons. cbn [has_char]. by rewrite IH, orb_assoc.
Qed.

Lemma has_char_lstrip (c : ascii) (s : string) :
  Str.is_space c = false -> has_char c (Str.lstrip s) = has_char c s.
Proof.
  intros Hc. induction s as [|x s IH]; [done |].
  cbn [Str.lstrip]. destruct (Str.is_space x) eqn:Hx; [| done].
  rewrite IH. cbn [has_char].
  by rewrite (Ascii.eqb_sym x c), (eqb_letter_space c x).
Qed.

Lemma has_char_rstrip (c : ascii) (s : string) :
  Str.is_space c = false -> has_char c (Str.rstrip s) = has_char c s.
Proof.
  intros Hc. induction s as [|x s IH]; [done |].
  cbn [Str.rstrip has_char]. rewrite <- IH.
  destruct (Str.rstrip s) as [|y r]; [| done].
  destruct (Str.is_space x) eqn:Hx; [| done].
  cbn [has_char]. by rewrite (Ascii.eqb_sym x c), (eqb_letter_space c x).
Qed.

Lemma has_char_strip (c : ascii) (s : string) :
  Str.is_space c = false -> has_char c (Str.strip s) = has_char c s.
Proof.
  intros Hc. unfold Str.strip. by rewrite has_char_rstrip, has_char_lstrip.
Qed.

Lemma split_once_found (sep : ascii) (s : string) :
  has_char sep s = true ->
  exists a b, split_once sep s = Some (a, b) /\
              s = a +:+ String sep b /\ has_char sep a = false.
Proof.
  induction s as [|x s IH]; [done |].
  cbn [has_char split_once].
  destruct (Ascii.eqb_spec x sep) as [-> | Hne].
  - intros _. by exists "", s.
  - cbn [orb]. intros Hs. destruct (IH Hs) as (a & b & -> & -> & Ha).
    exists (String x a), b. split; [done |]. split; [done |].
    cbn [has_char]. rewrite Ha. by apply Ascii.eqb_neq in Hne as ->.
Qed.

Lemma split_once_at (sep : ascii) (a b : string) :
  has_char sep a = false -> split_once sep (a +:+ String sep b) = Some (a, b).
Proof.
  induction a as [|x a IH]; intros Ha.
  - rewrite str_app_empty_l. cbn [split_once]. by rewrite Ascii.eqb_refl.
  - cbn [has_char] in Ha. apply orb_false_iff in Ha as [Hx Ha].
    rewrite str_app_cons. cbn [split_once]. by rewrite Hx, (IH Ha).
Qed.

(** *** The parse never fails *)

Lemma parse_pair_some (mapping : dict) (item : string) :
  exists mapping', parse_pair mapping item = Some mapping'.
Proof.
  unfold parse_pair. rewrite contains_char.
  destruct (has_char ":" item) eqn:Hc; [| by eexists].
  rewrite <- (has_char_strip ":" item) in Hc by reflexivity.
  destruct (split_once_found ":" _ Hc) as (a & b & -> & _). by eexists.
Qed.

Lemma parse_pairs_some (mapping : dict) (pairs : list string) :
  exists mapping', parse_pairs mapping pairs = Some mapping'.
Proof.
  revert mapping; induction pairs as [|item pairs IH]; intros mapping; [by eexists |].
  cbn [parse_pairs]. destruct (parse_pair_some mapping item) as [m' ->]. apply IH.
Qed.

(** The unpacking [old, new = pair.strip().split(":", 1)] cannot fail:
    whatever the argument text is, the module gets a mapping. *)
Theorem schema_mapping_always_parses (raw_mapping : string) :
  exists mapping, SCHEMA_MAPPING raw_mapping = Some mapping.
Proof.
  unfold SCHEMA_MAPPING. destruct (Str.is_empty raw_mapping); [by eexists |].
  apply parse_pairs_some.
Qed.

(** *** What the mapping holds *)

Lemma lstrip_starts_clean (s : string) : starts_clean (Str.lstrip s) = true.
Proof.
  induction s as [|x s IH]; [done |].
  cbn [Str.lstrip]. destruct (Str.is_space x) eqn:Hx; [done |].
  cbn. by rewrite Hx.
Qed.

Lemma rstrip_starts_clean (s : string) :
  starts_clean s = true -> starts_clean (Str.rstrip s) = true.
Proof.
  destruct s as [|x s]; [done |].
  cbn [starts_clean Str.rstrip]. intros Hx.
  destruct (Str.rstrip s); [| done].
  apply negb_true_iff in Hx. rewrite Hx. cbn. by rewrite Hx.
Qed.

Lemma lstrip_clean (s : string) : starts_clean s = true -> Str.lstrip s = s.
Proof.
  destruct s as [|x s]; [done |].
  cbn [starts_clean Str.lstrip]. intros Hx. apply negb_true_iff in Hx. by rewrite Hx.
Qed.

Lemma rstrip_idempotent (s : string) : Str.rstrip (Str.rstrip s) = Str.rstrip s.
Proof.
  induction s as [|x s IH]; [done |].
  cbn [Str.rstrip]. destruct (Str.rstrip s) as [|y r] eqn:E.
  - destruct (Str.is_space x) eqn:Hx; [done |]. cbn. by rewrite Hx.
  - cbn [Str.rstrip]. cbn [Str.rstrip] in IH. by rewrite IH.
Qed.

Lemma strip_trimmed (s : string) : trimmed (Str.strip s).
Proof.
  unfold trimmed, Str.strip.
  rewrite (lstrip_clean (Str.rstrip (Str.lstrip s))).
  - apply rstrip_idempotent.
  - apply rstrip_starts_clean, lstrip_starts_clean.
Qed.

Lemma split_no_sep (sep : ascii) (s : string) :
  Forall (fun x => has_char sep x = false) (split sep s).
Proof.
  induction s as [|x s IH]; [by repeat constructor |].
  cbn [split]. destruct (Ascii.eqb x sep) eqn:Hx.
  - by constructor.
  - destruct (split sep s) as [|y l]; [by repeat constructor; cbn; rewrite Hx |].
    apply Forall_cons in IH as [Hy Hl].
    constructor; [| done]. cbn [has_char]. by rewrite Hx, Hy.
Qed.

Lemma dict_set_entries (P : string * string -> Prop) (k v : string) (d : dict) :
  (forall k' v', P (k', v') -> k' = k -> P (k', v)) ->
  P (k, v) -> Forall P d -> Forall P (dict_set k v d).
Proof.
  intros Hupd Hkv. induction d as [|[k' v'] d IH]; intros Hd.
  - by repeat constructor.
  - apply Forall_cons in Hd as [Hhd Htl]. cbn [dict_set].
    destruct (String.eqb_spec k' k) as [-> | Hne].
    + constructor; [by apply (Hupd k v') | done].
    + constructor; [done | by apply IH].
Qed.

Lemma parse_pair_entries (mapping mapping' : dict) (item : string) :
  has_char "," item = false ->
  Forall mappable mapping ->
  parse_pair mapping item = Some mapping' ->
  Forall mappable mapping'.
Proof.
  intros Hcomma Hm. unfold parse_pair. rewrite contains_char.
  destruct (has_char ":" item) eqn:Hc; [| by intros [= <-]].
  rewrite <- (has_char_strip ":" item) in Hc by reflexivity.
  rewrite <- (has_char_strip "," item) in Hcomma by reflexivity.
  destruct (split_once_found ":" _ Hc) as (a & b & -> & Heq & Ha).
  intros [= <-].
  rewrite Heq, has_char_app in Hcomma. apply orb_false_iff in Hcomma as [Hca Hcb].
  cbn [has_char] in Hcb. apply orb_false_iff in Hcb as [_ Hcb].
  assert (Hnew : mappable (Str.strip a, Str.strip b)).
  { unfold mappable. cbn [fst snd].
    rewrite !has_char_strip by reflexivity.
    repeat split; try done; apply strip_trimmed. }
  apply dict_set_entries; [| done | done].
  intros k' v' (Hk & _ & Hcol & Hck & _) ->.
  destruct Hnew as (_ & Hv & _ & _ & Hcv). by repeat split.
Qed.

Lemma parse_pairs_entries (mapping mapping' : dict) (pairs : list string) :
  Forall (fun x => has_char "," x = false) pairs ->
  Forall mappable mapping ->
  parse_pairs mapping pairs = Some mapping' ->
  Forall mappable mapping'.
Proof.
  revert mapping; induction pairs as [|item pairs IH]; intros mapping Hp Hm.
  - by intros [= <-].
  - apply Forall_cons in Hp as [Hitem Hp]. cbn [parse_pairs].
    destruct (parse_pair mapping item) as [m1|] eqn:E; [| done].
    apply IH; [done |]. by apply (parse_pair_entries mapping m1 item).
Qed.

(** Every column name of the mapping is trimmed and has no comma in
    it, and an old name has no colon: the pair is cut at its first
    colon, so that only a new name can have one. *)
Theorem schema_mapping_entries (raw_mapping : string) (mapping : dict) (old new : string) :
  SCHEMA_MAPPING raw_mapping = Some mapping ->
  (old, new) ∈ mapping ->
  Str.strip old = old /\ Str.strip new = new /\
  has_char ":" old = false /\
  has_char "," old = false /\ has_char "," new = false.
Proof.
  unfold SCHEMA_MAPPING. intros Hparse Hin.
  assert (Hall : Forall mappable mapping).
  { destruct (Str.is_empty raw_mapping).
    - injection Hparse as <-. constructor.
    - apply (parse_pairs_entries [] mapping (split "," raw_mapping));
        [apply split_no_sep | constructor | done]. }
  rewrite Forall_forall in Hall. exact (Hall _ Hin).
Qed.

(** *** Writing a mapping and reading it back *)

Lemma split_nonempty (sep : ascii) (s : string) : split sep s <> [].
Proof.
  destruct s as [|x s]; [done |]. cbn [split].
  destruct (Ascii.eqb x sep); [done |]. by destruct (split sep s).
Qed.

Lemma split_plain (sep : ascii) (x : string) :
  has_char sep x = false -> split sep x = [x].
Proof.
  induction x as [|c x IH]; [done |].
  cbn [has_char split]. intros [Hc Hx]%orb_false_iff. by rewrite Hc, (IH Hx).
Qed.

Lemma split_at_sep (sep : ascii) (x rest : string) :
  has_char sep x = false -> split sep (x +:+ String sep rest) = x :: split sep rest.
Proof.
  induction x as [|c x IH].
  - intros _. rewrite str_app_empty_l. cbn [split]. by rewrite Ascii.eqb_refl.
  - cbn [has_char]. intros [Hc Hx]%orb_false_iff.
    rewrite str_app_cons. cbn [split]. by rewrite Hc, (IH Hx).
Qed.

Lemma split_snoc (sep : ascii) (s x : string) :
  has_char sep x = false -> split sep (s +:+ String sep x) = split sep s ++ [x].
Proof.
  intros Hx. induction s as [|c s IH].
  - rewrite str_app_empty_l. cbn [split]. by rewrite Ascii.eqb_refl, (split_plain sep x Hx).
  - rewrite str_app_cons. cbn [split]. rewrite IH.
    destruct (Ascii.eqb c sep); [done |].
    pose proof (split_nonempty sep s) as Hne. by destruct (split sep s).
Qed.

Lemma join_cons (sep x : string) (l : list string) :
  l <> [] -> Str.join sep (x :: l) = x +:+ sep +:+ Str.join sep l.
Proof. by destruct l. Qed.

Lemma split_join (sep : ascii) (xs : list string) :
  xs <> [] ->
  Forall (fun x => has_char sep x = false) xs ->
  split sep (Str.join (String sep EmptyString) xs) = xs.
Proof.
  induction xs as [|x xs IH]; [done |]. intros _ Hall.
  apply Forall_cons in Hall as [Hx Hxs].
  destruct xs as [|y xs]; [by apply split_plain |].
  rewrite join_cons by done.
  change (String sep "" +:+ Str.join (String sep "") (y :: xs))
    with (String sep (Str.join (String sep "") (y :: xs))).
  rewrite split_at_sep by done. by rewrite IH.
Qed.

Lemma trimmed_starts_clean (s : string) : trimmed s -> starts_clean s = true.
Proof.
  unfold trimmed, Str.strip. intros <-.
  apply rstrip_starts_clean, lstrip_starts_clean.
Qed.

Lemma trimmed_rstrip (s : string) : trimmed s -> Str.rstrip s = s.
Proof.
  unfold trimmed, Str.strip. intros H. rewrite <- H at 1. by rewrite rstrip_idempotent.
Qed.

Lemma rstrip_cons_letter (c : ascii) (s : string) :
  Str.is_space c = false -> Str.rstrip (String c s) = String c (Str.rstrip s).
Proof. intros Hc. cbn [Str.rstrip]. destruct (Str.rstrip s); by rewrite ?Hc. Qed.

Lemma rstrip_app_kept (a b : string) :
  Str.rstrip b = b -> b <> "" -> Str.rstrip (a +:+ b) = a +:+ b.
Proof.
  intros Hb Hne. induction a as [|x a IH]; [done |].
  rewrite str_app_cons. cbn [Str.rstrip]. rewrite IH.
  destruct (a +:+ b) eqn:E; [| done].
  destruct a; [by rewrite str_app_empty_l in E | discriminate E].
Qed.

Lemma strip_pair_text (k v : string) :
  trimmed k -> trimmed v -> Str.strip (k +:+ String ":" v) = k +:+ String ":" v.
Proof.
  intros Hk Hv. unfold Str.strip.
  rewrite lstrip_clean.
  - apply rstrip_app_kept; [| done].
    rewrite rstrip_cons_letter by reflexivity. by rewrite (trimmed_rstrip v).
  - apply trimmed_starts_clean in Hk. destruct k; [reflexivity | exact Hk].
Qed.

Lemma parse_pair_rendered (mapping : dict) (k v : string) :
  mappable (k, v) ->
  parse_pair mapping (k +:+ ":" +:+ v) = Some (dict_set k v mapping).
Proof.
  intros (Hk & Hv & Hcol & _). cbn [fst snd] in *.
  change (":" +:+ v) with (String ":" v).
  unfold parse_pair. rewrite contains_char, has_char_app.
  cbn [has_char]. rewrite Ascii.eqb_refl, orb_true_r.
  rewrite strip_pair_text, split_once_at by done.
  by rewrite Hk, Hv.
Qed.

Lemma parse_pairs_rendered (mapping : dict) (l : list (string * string)) :
  Forall mappable l ->
  parse_pairs mapping (map (fun kv => fst kv +:+ ":" +:+ snd kv) l) =
    Some (foldl (fun d kv => dict_set (fst kv) (snd kv) d) mapping l).
Proof.
  revert mapping; induction l as [|[k v] l IH]; intros mapping Hall; [done |].
  apply Forall_cons in Hall as [Hkv Hl].
  cbn [map parse_pairs foldl fst snd]. rewrite parse_pair_rendered by done. by apply IH.
Qed.

Lemma dict_set_fresh (k v : string) (d : dict) :
  k ∉ map fst d -> dict_set k v d = d ++ [(k, v)].
Proof.
  induction d as [|[k' v'] d IH]; intros Hk; [done |].
  cbn [dict_set map fst] in *. apply not_elem_of_cons in Hk as [Hne Hk].
  destruct (String.eqb_spec k' k) as [-> | _]; [done |]. by rewrite IH.
Qed.

Lemma assign_fresh (acc l : list (string * string)) :
  NoDup (map fst (acc ++ l)) ->
  foldl (fun d kv => dict_set (fst kv) (snd kv) d) acc l = acc ++ l.
Proof.
  revert acc; induction l as [|[k v] l IH]; intros acc Hnd; [by rewrite app_nil_r |].
  cbn [foldl fst snd].
  assert (Hk : k ∉ map fst acc).
  { rewrite map_app in Hnd. apply NoDup_app in Hnd as (_ & Hdisj & _).
    intros Hin. apply (Hdisj k Hin). cbn. left. }
  rewrite dict_set_fresh by done.
  rewrite IH; [by rewrite <- app_assoc |]. by rewrite <- app_assoc.
Qed.

(** The argument text [old:new,old2:new2] written for a list of pairs
    is read back as the dictionary made by assigning the pairs in
    their order; with old names all different that is the list itself. *)
Theorem schema_mapping_round_trip (l : list (string * string)) :
  Forall mappable l ->
  SCHEMA_MAPPING (render_mapping l) = Some (assign_all l) /\
  (NoDup (map fst l) -> SCHEMA_MAPPING (render_mapping l) = Some l).
Proof.
  intros Hall.
  assert (Hparse : SCHEMA_MAPPING (render_mapping l) = Some (assign_all l)).
  { unfold SCHEMA_MAPPING, render_mapping, assign_all.
    destruct l as [|[k v] l]; [done |].
    set (items := map (fun kv => fst kv +:+ ":" +:+ snd kv) ((k, v) :: l)).
    assert (Hne : Str.is_empty (Str.join "," items) = false).
    { unfold items. cbn [map fst snd].
      destruct (map _ l); [| rewrite join_cons by done]; by destruct k. }
    rewrite Hne.
    rewrite (split_join "," items).
    - by apply parse_pairs_rendered.
    - done.
    - unfold items. rewrite Forall_map. eapply Forall_impl; [exact Hall |].
      intros [k' v'] (_ & _ & _ & Hck & Hcv). cbn [fst snd] in *.
      rewrite !has_char_app, Hck, Hcv. reflexivity. }
  split; [exact Hparse |].
  intros Hnd. rewrite Hparse. f_equal. by apply (assign_fresh [] l).
Qed.

Lemma parse_pairs_app (mapping : dict) (l1 l2 : list string) :
  parse_pairs mapping (l1 ++ l2) =
    match parse_pairs mapping l1 with
    | Some mapping' => parse_pairs mapping' l2
    | None => None
    end.
Proof.
  revert mapping; induction l1 as [|x l1 IH]; intros mapping; [done |].
  cbn [app parse_pairs]. by destruct (parse_pair mapping x).
Qed.

Lemma dict_get_set (k v k' : string) (d : dict) :
  dict_get k' (dict_set k v d) = if String.eqb k k' then Some v else dict_get k' d.
Proof.
  induction d as [|[k0 v0] d IH].
  - cbn [dict_set dict_get]. by destruct (String.eqb k k').
  - cbn [dict_set]. destruct (String.eqb_spec k0 k) as [-> | Hne]; cbn [dict_get].
    + by destruct (String.eqb k k').
    + rewrite IH.
      destruct (String.eqb_spec k0 k'), (String.eqb_spec k k'); congruence.
Qed.

(** The guard on the empty argument changes nothing: splitting the
    empty text gives one empty item, which has no colon. *)
Lemma schema_mapping_unguarded (raw_mapping : string) :
  SCHEMA_MAPPING raw_mapping = parse_pairs [] (split "," raw_mapping).
Proof. unfold SCHEMA_MAPPING. by destruct raw_mapping. Qed.

(** Appending [,old:new] to an argument text overrides what the text
    said of [old] and leaves every other name as it was: this is how a
    mapping already there is patched. *)
Theorem schema_mapping_patch (raw_mapping old new : string) (before : dict) :
  mappable (old, new) ->
  SCHEMA_MAPPING raw_mapping = Some before ->
  exists after,
    SCHEMA_MAPPING (raw_mapping +:+ "," +:+ old +:+ ":" +:+ new) = Some after /\
    dict_get old after = Some new /\
    forall other, other <> old -> dict_get other after = dict_get other before.
Proof.
  intros Hm Hbefore.
  exists (dict_set old new before).
  assert (Hcomma : has_char "," (old +:+ ":" +:+ new) = false).
  { destruct Hm as (_ & _ & _ & Hck & Hcv). cbn [fst snd] in *.
    by rewrite !has_char_app, Hck, Hcv. }
  split; [| split].
  - rewrite schema_mapping_unguarded in Hbefore |- *.
    change ("," +:+ old +:+ ":" +:+ new) with (String "," (old +:+ ":" +:+ new)).
    rewrite split_snoc by done.
    rewrite parse_pairs_app, Hbefore. cbn [parse_pairs].
    by rewrite parse_pair_rendered.
  - by rewrite dict_get_set, String.eqb_refl.
  - intros other Hother. rewrite dict_get_set.
    destruct (String.eqb_spec old other) as [-> | _]; done.
Qed.

End MappingFacts.

(** ** More concrete runs *)

Section HandlerMoreRuns.
Import Handler.

Lemma validate_sql_names_first_listed_witness :
  (exists kw, kw ∈ BLOCKED_KEYWORDS /\
              substring_of kw (Str.upper "delete from t; drop table t")) /\
  exists earlier kw later,
    BLOCKED_KEYWORDS = earlier ++ kw :: later /\
    substring_of kw (Str.upper "delete from t; drop table t") /\
    (forall k, k ∈ earlier -> ~ substring_of k (Str.upper "delete from t; drop table t")) /\
    validate_sql "delete from t; drop table t" =
      {| safe := false; reason := Some ("Blocked keyword detected: " +:+ kw) |}.
Proof.
  assert (H : exists kw, kw ∈ BLOCKED_KEYWORDS /\
                         substring_of kw (Str.upper "delete from t; drop table t")).
  { exists "DELETE". split; [right; left |].
    apply contains_substring_of. vm_compute. reflexivity. }
  split; [exact H |].
  exact (validate_sql_names_first_listed "delete from t; drop table t" H).
Defined.

Lemma validate_sql_rejects_any_case_witness :
  "CREATE" ∈ BLOCKED_KEYWORDS /\
  substring_nocase "CREATE" "SELECT created_at FROM orders" /\
  safe (validate_sql "SELECT created_at FROM orders") = false.
Proof.
  assert (H1 : "CREATE" ∈ BLOCKED_KEYWORDS) by (apply list_elem_of_In; vm_compute; tauto).
  assert (H2 : substring_nocase "CREATE" "SELECT created_at FROM orders").
  { apply contains_upper_nocase; vm_compute; reflexivity. }
  split; [exact H1 |]. split; [exact H2 |].
  exact (validate_sql_rejects_any_case "SELECT created_at FROM orders" "CREATE" H1 H2).
Defined.

Lemma validate_sql_ignores_padding_witness :
  all_space (Str.newline +:+ "  ") = true /\
  all_space " " = true /\
  validate_sql ((Str.newline +:+ "  ") +:+ "select 1" +:+ " ") = validate_sql "select 1".
Proof.
  split; [reflexivity |]. split; [reflexivity |].
  apply (validate_sql_ignores_padding (Str.newline +:+ "  ") "select 1" " "); reflexivity.
Defined.

Lemma never_done_still_running (query_id : string) (i : nat) :
  still_running never_done_clients query_id i.
Proof.
  eexists. split; [reflexivity |].
  apply (bool_decide_eq_false_1 (_ ∈ _)). vm_compute. reflexivity.
Qed.

Lemma poll_query_sleep_budget_witness :
  (forall i, (i < Z.to_nat (60 / 2))%nat -> still_running never_done_clients "query-0001" i) /\
  slept_seconds (calls_of (poll_query never_done_clients "query-0001" 60)) = 60.
Proof.
  assert (H : forall i, (i < Z.to_nat (60 / 2))%nat ->
                        still_running never_done_clients "query-0001" i)
    by (intros i _; apply never_done_still_running).
  split; [exact H |].
  exact (proj2 (poll_query_sleep_budget never_done_clients "query-0001" 60) H).
Defined.

Lemma poll_query_short_timeout_witness :
  1 < 2 /\
  run (poll_query second_poll_clients "query-0001" 1) = (Returns ("TIMEOUT", no_statistics), []).
Proof.
  split; [lia |].
  apply (poll_query_short_timeout second_poll_clients "query-0001" 1). lia.
Defined.

Lemma poll_query_raises_witness :
  (1 < Z.to_nat (60 / 2))%nat /\
  (forall i, (i < 1)%nat -> still_running throttled_poll_clients "query-0001" i) /\
  athena_get_query_execution throttled_poll_clients "query-0001" 1
    = Raises (ClientError "Throttling") /\
  run (poll_query throttled_poll_clients "query-0001" 60) =
    (Raises (ClientError "Throttling"),
     [ AthenaGetQueryExecution "query-0001"; TimeSleep 2; AthenaGetQueryExecution "query-0001" ]).
Proof.
  assert (H1 : (1 < Z.to_nat (60 / 2))%nat) by (vm_compute; lia).
  assert (H2 : forall i, (i < 1)%nat -> still_running throttled_poll_clients "query-0001" i).
  { intros i Hi. assert (i = 0%nat) as -> by lia.
    eexists. split; [reflexivity |].
    apply (bool_decide_eq_false_1 (_ ∈ _)). vm_compute. reflexivity. }
  split; [exact H1 |]. split; [exact H2 |]. split; [reflexivity |].
  exact (poll_query_raises throttled_poll_clients "query-0001" 60 1
           (ClientError "Throttling") H1 H2 eq_refl).
Defined.

Lemma fetch_results_row_cap_witness :
  athena_get_query_results second_poll_clients "query-0001" 100 =
    Returns [text_row ["region"; "revenue"]; text_row ["emea"; "10"]; text_row ["apac"; "12"]] /\
  (3 <= 100)%nat /\
  exists p,
    result_of (fetch_results second_poll_clients "query-0001" "SELECT 1" no_statistics) = Returns p /\
    0 <= row_count p <= 99.
Proof.
  split; [reflexivity |]. split; [lia |].
  eexists. split; [reflexivity |].
  apply (fetch_results_row_cap second_poll_clients "query-0001" "SELECT 1" no_statistics
           _ _ eq_refl); [cbn; lia | reflexivity].
Defined.

Lemma fetch_results_arity_witness :
  athena_get_query_results second_poll_clients "query-0001" 100 =
    Returns (text_row ["region"; "revenue"] :: [text_row ["emea"; "10"]; text_row ["apac"; "12"]]) /\
  exists p,
    result_of (fetch_results second_poll_clients "query-0001" "SELECT 1" no_statistics) = Returns p /\
    length (columns p) = 2%nat /\
    map length (rows p) = [2%nat; 2%nat].
Proof.
  split; [reflexivity |].
  eexists. split; [reflexivity |].
  destruct (fetch_results_arity second_poll_clients "query-0001" "SELECT 1" no_statistics
              _ _ _ eq_refl eq_refl) as (H1 & H2 & _).
  split; [exact H1 | exact H2].
Defined.

Lemma execute_nl_query_generation_failure_witness :
  generated_query plain_float_repr model_down_clients "how many sales" "data_warehouse"
    = Raises (ClientError "model not ready") /\
  result_of (execute_nl_query plain_float_repr model_down_clients "how many sales" "data_warehouse")
    = Raises (ClientError "model not ready").
Proof.
  split; [vm_compute; reflexivity |].
  apply (execute_nl_query_generation_failure plain_float_repr model_down_clients
           "how many sales" "data_warehouse" (ClientError "model not ready")).
  vm_compute. reflexivity.
Defined.

Lemma execute_nl_query_submission_failure_witness :
  generated_query plain_float_repr submission_down_clients "how many sales" "data_warehouse"
    = Returns "SELECT count(*) FROM sales" /\
  safe (validate_sql "SELECT count(*) FROM sales") = true /\
  athena_start_query_execution submission_down_clients "SELECT count(*) FROM sales"
    "data_warehouse" ATHENA_OUTPUT "primary" = Raises (ClientError "work group disabled") /\
  result_of (execute_nl_query plain_float_repr submission_down_clients
               "how many sales" "data_warehouse")
    = Raises (ClientError "work group disabled").
Proof.
  split; [vm_compute; reflexivity |]. split; [vm_compute; reflexivity |].
  split; [reflexivity |].
  apply (execute_nl_query_submission_failure plain_float_repr submission_down_clients
           "how many sales" "data_warehouse" "SELECT count(*) FROM sales"
           (ClientError "work group disabled"));
    vm_compute; reflexivity.
Defined.

Lemma execute_nl_query_submits_validated_witness :
  AthenaStartQueryExecution "SELECT region, revenue FROM sales" "data_warehouse"
    ATHENA_OUTPUT "primary"
    ∈ calls_of (execute_nl_query plain_float_repr second_poll_clients
                  "revenue by region" "data_warehouse") /\
  exists q,
    generated_query plain_float_repr second_poll_clients "revenue by region" "data_warehouse"
      = Returns q /\
    safe (validate_sql q) = true /\
    length (filter is_submission
              (calls_of (execute_nl_query plain_float_repr second_poll_clients
                           "revenue by region" "data_warehouse"))) = 1%nat.
Proof.
  assert (H : AthenaStartQueryExecution "SELECT region, revenue FROM sales" "data_warehouse"
                ATHENA_OUTPUT "primary"
              ∈ calls_of (execute_nl_query plain_float_repr second_poll_clients
                            "revenue by region" "data_warehouse")).
  { apply (list_elem_of_lookup_2 _ 2%nat). vm_compute. reflexivity. }
  split; [exact H |].
  destruct (execute_nl_query_submits_validated plain_float_repr second_poll_clients
              "revenue by region" "data_warehouse" _ H eq_refl) as (q & _ & Hq).
  exists q. exact Hq.
Defined.

Lemma execute_nl_query_not_succeeded_witness :
  generated_query plain_float_repr never_done_clients "how many sales" "data_warehouse"
    = Returns "SELECT count(*) FROM sales" /\
  safe (validate_sql "SELECT count(*) FROM sales") = true /\
  athena_start_query_execution never_done_clients "SELECT count(*) FROM sales"
    "data_warehouse" ATHENA_OUTPUT "primary" = Returns "query-0001" /\
  result_of (poll_query never_done_clients "query-0001" 60) = Returns ("TIMEOUT", no_statistics) /\
  "TIMEOUT" <> "SUCCEEDED" /\
  result_of (execute_nl_query plain_float_repr never_done_clients "how many sales" "data_warehouse")
    = Returns (Failed {| error := "Athena query TIMEOUT";
                         sql := Some "SELECT count(*) FROM sales";
                         query_id := Some "query-0001" |}).
Proof.
  split; [vm_compute; reflexivity |]. split; [vm_compute; reflexivity |].
  split; [reflexivity |]. split; [vm_compute; reflexivity |]. split; [discriminate |].
  apply (execute_nl_query_not_succeeded plain_float_repr never_done_clients
           "how many sales" "data_warehouse" "SELECT count(*) FROM sales" "query-0001"
           "TIMEOUT" no_statistics);
    try (vm_compute; reflexivity). discriminate.
Defined.

Lemma execute_nl_query_succeeded_witness :
  generated_query plain_float_repr second_poll_clients "revenue by region" "data_warehouse"
    = Returns "SELECT region, revenue FROM sales" /\
  safe (validate_sql "SELECT region, revenue FROM sales") = true /\
  result_of (poll_query second_poll_clients "query-0001" 60) =
    Returns ("SUCCEEDED",
             {| DataScannedInBytes := Some 2097152; TotalExecutionTimeInMillis := Some 840 |}) /\
  exists p,
    result_of (execute_nl_query plain_float_repr second_poll_clients
                 "revenue by region" "data_warehouse") = Returns (Answer p) /\
    sql_generated p = "SELECT region, revenue FROM sales" /\
    columns p = ["region"; "revenue"].
Proof.
  split; [vm_compute; reflexivity |]. split; [vm_compute; reflexivity |].
  split; [vm_compute; reflexivity |].
  eexists.
  destruct (proj1 (execute_nl_query_succeeded plain_float_repr second_poll_clients
                     "revenue by region" "data_warehouse"
                     "SELECT region, revenue FROM sales" "query-0001"
                     {| DataScannedInBytes := Some 2097152;
                        TotalExecutionTimeInMillis := Some 840 |}
                     ltac:(vm_compute; reflexivity) ltac:(vm_compute; reflexivity)
                     eq_refl ltac:(vm_compute; reflexivity))
              _ ltac:(vm_compute; reflexivity)) as (H1 & H2).
  split; [exact H1 |]. split; [exact H2 | reflexivity].
Defined.

Lemma get_catalog_schema_text_type_witness :
  glue_get_tables glue_catalog_clients "data_warehouse" = Returns [sales_table] /\
  col_Type {| col_Name := "region"; col_Type := TypeText "string" |} = TypeText "string" /\
  result_of (get_catalog_schema glue_catalog_clients "data_warehouse") =
    Returns "Schema unavailable — generate best-effort SQL".
Proof.
  split; [reflexivity |]. split; [reflexivity |].
  apply (get_catalog_schema_text_type glue_catalog_clients "data_warehouse" [sales_table]
           sales_table {| col_Name := "region"; col_Type := TypeText "string" |} "string").
  - reflexivity.
  - left.
  - left.
  - reflexivity.
Defined.

Lemma lambda_handler_missing_question_witness :
  function {| actionGroup := "QueryActions"; function := "execute_nl_query";
              parameters := None |} = "execute_nl_query" /\
  run (lambda_handler plain_float_repr second_poll_clients
         {| actionGroup := "QueryActions"; function := "execute_nl_query"; parameters := None |})
    = (Raises (KeyError "question"), []).
Proof.
  split; [reflexivity |].
  apply (lambda_handler_missing_question plain_float_repr second_poll_clients
           {| actionGroup := "QueryActions"; function := "execute_nl_query";
              parameters := None |}); [reflexivity |].
  intros p Hp. by apply not_elem_of_nil in Hp.
Defined.

Lemma lambda_handler_routes_witness :
  function asked_twice = "execute_nl_query" /\
  calls_of (lambda_handler plain_float_repr drop_table_clients asked_twice) =
    calls_of (execute_nl_query plain_float_repr drop_table_clients
                "remove the sales table" "data_warehouse").
Proof.
  split; [reflexivity |].
  unfold calls_of.
  rewrite (lambda_handler_routes plain_float_repr drop_table_clients asked_twice
             [ {| p_name := "question"; p_value := "how many sales" |};
               {| p_name := "limit"; p_value := "10" |} ]
             []
             {| p_name := "question"; p_value := "remove the sales table" |}).
  - cbn [p_value].
    by destruct (run (execute_nl_query plain_float_repr drop_table_clients
                        "remove the sales table" "data_warehouse")) as [[r|e] log].
  - reflexivity.
  - reflexivity.
  - reflexivity.
  - intros p Hp. by apply not_elem_of_nil in Hp.
  - intros p Hp.
    repeat (apply elem_of_cons in Hp as [-> | Hp]; [discriminate |]).
    by apply not_elem_of_nil in Hp.
Defined.

End HandlerMoreRuns.

Section TriageMoreRuns.
Import SelfHealing.

Lemma invoke_agent_accumulates_witness :
  result_of (invoke_agent (stub_triage_clients human_narrative (Returns tt) (Returns tt))
               "diagnose" "heal-jr_42")
    = Returns (human_narrative, [JDict []]).
Proof.
  destruct (invoke_agent_accumulates
              (stub_triage_clients human_narrative (Returns tt) (Returns tt))
              "diagnose" "heal-jr_42" _ eq_refl) as (H & _).
  rewrite H. vm_compute. reflexivity.
Defined.

Lemma lambda_handler_agent_failure_witness :
  triage_decision plain_float_repr agent_down_clients sales_failure
    = Raises (ClientError "agent not prepared") /\
  result_of (lambda_handler plain_float_repr agent_down_clients sales_failure)
    = Raises (ClientError "agent not prepared").
Proof.
  split; [vm_compute; reflexivity |].
  apply (lambda_handler_agent_failure plain_float_repr agent_down_clients sales_failure
           (ClientError "agent not prepared")).
  vm_compute. reflexivity.
Defined.

Lemma lambda_handler_metrics_once_witness :
  triage_decision plain_float_repr
    (stub_triage_clients escalate_narrative (Returns tt) (Raises (ClientError "Topic not found")))
    sales_failure = Returns (escalate_narrative, [JDict []]) /\
  length (filter is_metric_call
            (calls_of (lambda_handler plain_float_repr
                         (stub_triage_clients escalate_narrative (Returns tt)
                            (Raises (ClientError "Topic not found")))
                         sales_failure))) = 1%nat.
Proof.
  split; [vm_compute; reflexivity |].
  rewrite (lambda_handler_metrics_once plain_float_repr
             (stub_triage_clients escalate_narrative (Returns tt)
                (Raises (ClientError "Topic not found")))
             sales_failure escalate_narrative [JDict []]); [reflexivity |].
  vm_compute. reflexivity.
Defined.

Lemma lambda_handler_summary_excerpt_witness :
  triage_decision plain_float_repr
    (stub_triage_clients fixed_narrative (Returns tt) (Returns tt)) sales_failure
    = Returns (fixed_narrative, [JDict []]) /\
  result_of (lambda_handler plain_float_repr
               (stub_triage_clients fixed_narrative (Returns tt) (Returns tt)) sales_failure)
    = Returns (summary_of sales_failure fixed_narrative [JDict []]) /\
  (String.length (summary (summary_of sales_failure fixed_narrative [JDict []])) <= 500)%nat.
Proof.
  split; [vm_compute; reflexivity |]. split; [vm_compute; reflexivity |].
  apply (lambda_handler_summary_excerpt plain_float_repr
           (stub_triage_clients fixed_narrative (Returns tt) (Returns tt)) sales_failure
           fixed_narrative [JDict []]); vm_compute; reflexivity.
Defined.

Lemma lambda_handler_resolved_flag_witness :
  triage_decision plain_float_repr
    (stub_triage_clients escalate_narrative (Returns tt) (Returns tt)) sales_failure
    = Returns (escalate_narrative, [JDict []]) /\
  result_of (lambda_handler plain_float_repr
               (stub_triage_clients escalate_narrative (Returns tt) (Returns tt)) sales_failure)
    = Returns (summary_of sales_failure escalate_narrative [JDict []]) /\
  resolved (summary_of sales_failure escalate_narrative [JDict []]) = false /\
  notifications
    (calls_of (lambda_handler plain_float_repr
                 (stub_triage_clients escalate_narrative (Returns tt) (Returns tt))
                 sales_failure)) = 1%nat.
Proof.
  split; [vm_compute; reflexivity |]. split; [vm_compute; reflexivity |].
  split; [vm_compute; reflexivity |].
  apply (lambda_handler_resolved_flag plain_float_repr
           (stub_triage_clients escalate_narrative (Returns tt) (Returns tt)) sales_failure
           escalate_narrative [JDict []]
           (summary_of sales_failure escalate_narrative [JDict []]));
    vm_compute; reflexivity.
Defined.

End TriageMoreRuns.

Section MappingRuns.
Import SalesTransform.

Lemma mappable_quantity : mappable ("qty", "quantity").
Proof. repeat split; vm_compute; reflexivity. Qed.

Lemma schema_mapping_entries_witness :
  SCHEMA_MAPPING " revenue_local : revenue_usd , qty:quantity" =
    Some [("revenue_local", "revenue_usd"); ("qty", "quantity")] /\
  ("revenue_local", "revenue_usd") ∈ [("revenue_local", "revenue_usd"); ("qty", "quantity")] /\
  Str.strip "revenue_local" = "revenue_local" /\
  Str.strip "revenue_usd" = "revenue_usd" /\
  has_char ":" "revenue_local" = false /\
  has_char "," "revenue_local" = false /\
  has_char "," "revenue_usd" = false.
Proof.
  split; [vm_compute; reflexivity |]. split; [left |].
  apply (schema_mapping_entries " revenue_local : revenue_usd , qty:quantity"
           [("revenue_local", "revenue_usd"); ("qty", "quantity")]);
    [vm_compute; reflexivity | left].
Defined.

Lemma schema_mapping_round_trip_witness :
  Forall mappable [("revenue_local", "revenue_usd"); ("qty", "quantity")] /\
  NoDup (map fst [("revenue_local", "revenue_usd"); ("qty", "quantity")]) /\
  SCHEMA_MAPPING "revenue_local:revenue_usd,qty:quantity" =
    Some [("revenue_local", "revenue_usd"); ("qty", "quantity")].
Proof.
  assert (H : Forall mappable [("revenue_local", "revenue_usd"); ("qty", "quantity")]).
  { repeat constructor; vm_compute; reflexivity. }
  assert (Hnd : NoDup (map fst [("revenue_local", "revenue_usd"); ("qty", "quantity")])).
  { apply NoDup_ListNoDup. repeat constructor; cbn; intuition discriminate. }
  split; [exact H |]. split; [exact Hnd |].
  exact (proj2 (schema_mapping_round_trip _ H) Hnd).
Defined.

Lemma schema_mapping_patch_witness :
  mappable ("qty", "quantity") /\
  SCHEMA_MAPPING "revenue_local:revenue_usd,qty:units" =
    Some [("revenue_local", "revenue_usd"); ("qty", "units")] /\
  exists after,
    SCHEMA_MAPPING ("revenue_local:revenue_usd,qty:units" +:+ "," +:+ "qty" +:+ ":" +:+ "quantity")
      = Some after /\
    dict_get "qty" after = Some "quantity" /\
    forall other, other <> "qty" ->
                  dict_get other after
                  = dict_get other [("revenue_local", "revenue_usd"); ("qty", "units")].
Proof.
  split; [exact mappable_quantity |]. split; [vm_compute; reflexivity |].
  apply (schema_mapping_patch "revenue_local:revenue_usd,qty:units" "qty" "quantity"
           [("revenue_local", "revenue_usd"); ("qty", "units")]);
    [exact mappable_quantity | vm_compute; reflexivity].
Defined.

End MappingRuns.

